(** * Overlay engine of the passport application form filler

    A shallow embedding of [fill_passport_form.py] and [field_config.py].

    Applicant records are JSON values as Python sees them after parsing.
    Python operations that can raise ([.get] and [.lower] on a value of the
    wrong type, subscripting a dict with a missing key, opening the
    template) are fallible functions into [result]; the page is a log of the
    [page.insert_text] calls issued so far, threaded through a small
    state-and-exception monad in which the marks written before a raise
    stay on the page, as they do on the Python object.

    A Python text is held as its UTF-8 encoding (a lone surrogate, which
    JSON can deliver, as the three bytes of its code point). Splitting,
    joining, replacing a space and comparing act on the bytes, which is what
    they do on the characters, since no byte of a character beyond U+007F is
    below 0x80. Whitespace and [repr] act on the decoded characters, with
    the whole whitespace class of [str.isspace]; what [repr] escapes beyond
    U+007E is decided by the interpreter's character table, a parameter of
    the development. Case mapping is used by the code only to compare with
    ASCII keys: [lower] and [upper] map the letters A-Z and a-z and leave
    longer encodings alone, which decides those comparisons as Python does
    (the one character beyond ASCII that lowercases to ASCII letters is
    U+212A, to k, and no key holds a k; none uppercases to a text made of
    N, / and A).
    JSON numbers are integers (floats are left out of the value type). *)

From Stdlib Require Import String Ascii List ZArith NArith Bool Lia DecimalString.
Import ListNotations.
Set Warnings "-register-all".
Local Open Scope string_scope.
Local Open Scope Z_scope.

(** ** Python values *)

Inductive pyval : Type :=
| VNone
| VBool (b : bool)
| VInt (n : Z)
| VStr (s : string)
| VList (l : list pyval)
| VDict (d : list (string * pyval)).

Inductive exn : Type :=
| AttributeError (attr : string)
| KeyError (key : string)
| TypeError
| IndexError
| FileNotFoundError (path : string).

Inductive result (A : Type) : Type :=
| Ok (a : A)
| Raise (e : exn).
Arguments Ok {A} a.
Arguments Raise {A} e.

Definition is_ok {A} (r : result A) : bool :=
  match r with Ok _ => true | Raise _ => false end.

(** Dicts keep insertion order (it shows in [str] and in [.items()]); a
    Python dict holds a key once, and lookup takes the first binding. *)
Fixpoint dict_get {V : Type} (d : list (string * V)) (k : string) : option V :=
  match d with
  | [] => None
  | (k', v) :: d' => if String.eqb k k' then Some v else dict_get d' k
  end.

Definition dict_mem {V : Type} (d : list (string * V)) (k : string) : bool :=
  match dict_get d k with Some _ => true | None => false end.

(** [d[k]] *)
Definition subscript {V : Type} (d : list (string * V)) (k : string) : result V :=
  match dict_get d k with Some v => Ok v | None => Raise (KeyError k) end.

(** [bool(v)] *)
Definition py_truthy (v : pyval) : bool :=
  match v with
  | VNone => false
  | VBool b => b
  | VInt n => negb (n =? 0)
  | VStr s => negb (String.eqb s "")
  | VList l => match l with [] => false | _ => true end
  | VDict d => match d with [] => false | _ => true end
  end.

Definition isinstance_dict (v : pyval) : bool :=
  match v with VDict _ => true | _ => false end.

(** ** Strings *)

Definition is_upper (c : ascii) : bool :=
  let n := nat_of_ascii c in (Nat.leb 65 n && Nat.leb n 90)%bool.

Definition is_lower (c : ascii) : bool :=
  let n := nat_of_ascii c in (Nat.leb 97 n && Nat.leb n 122)%bool.

Definition lower_char (c : ascii) : ascii :=
  if is_upper c then ascii_of_nat (nat_of_ascii c + 32) else c.

Definition upper_char (c : ascii) : ascii :=
  if is_lower c then ascii_of_nat (nat_of_ascii c - 32) else c.

Fixpoint map_string (f : ascii -> ascii) (s : string) : string :=
  match s with
  | EmptyString => EmptyString
  | String c s' => String (f c) (map_string f s')
  end.

(** [s.lower()], [s.upper()], [s.replace(old, new)] for one-character
    [old] and [new]. *)
Definition str_lower : string -> string := map_string lower_char.
Definition str_upper : string -> string := map_string upper_char.
Definition str_replace (old new : ascii) : string -> string :=
  map_string (fun c => if Ascii.eqb c old then new else c).

(** *** Characters

    The bytes 0x80-0xBF continue a character. *)
Definition is_cont (b : ascii) : bool :=
  ((128 <=? N_of_ascii b) && (N_of_ascii b <? 192))%N.

Definition cont_bits (b : ascii) : N := (N_of_ascii b - 128)%N.

(** A character: its code point, and its bytes as the first one and the
    rest. *)
Definition uchar : Type := N * (ascii * string).

Definition code_point (ch : uchar) : N := fst ch.
Definition char_bytes (ch : uchar) : string := String (fst (snd ch)) (snd (snd ch)).

(** The characters of two, three and four bytes. *)
Definition char2 (b1 b2 : ascii) : option uchar :=
  let n1 := N_of_ascii b1 in
  if ((192 <=? n1) && (n1 <? 224))%N && is_cont b2
  then Some (((n1 - 192) * 64 + cont_bits b2)%N, (b1, String b2 ""))
  else None.

Definition char3 (b1 b2 b3 : ascii) : option uchar :=
  let n1 := N_of_ascii b1 in
  if ((224 <=? n1) && (n1 <? 240))%N && is_cont b2 && is_cont b3
  then Some (((n1 - 224) * 4096 + cont_bits b2 * 64 + cont_bits b3)%N,
             (b1, String b2 (String b3 "")))
  else None.

Definition char4 (b1 b2 b3 b4 : ascii) : option uchar :=
  let n1 := N_of_ascii b1 in
  if ((240 <=? n1) && (n1 <? 248))%N && is_cont b2 && is_cont b3 && is_cont b4
  then Some (((n1 - 240) * 262144 + cont_bits b2 * 4096
              + cont_bits b3 * 64 + cont_bits b4)%N,
             (b1, String b2 (String b3 (String b4 ""))))
  else None.

(** A byte that starts no character, which no Python text has, stands
    alone under the code point U+DC00 + byte. *)
Definition stray (b1 : ascii) : uchar := ((56320 + N_of_ascii b1)%N, (b1, "")).

(** The characters of a text, in order. *)
Fixpoint uchars (s : string) : list uchar :=
  match s with
  | EmptyString => []
  | String b1 r1 =>
      if (N_of_ascii b1 <? 128)%N then (N_of_ascii b1, (b1, "")) :: uchars r1
      else
        match r1 with
        | EmptyString => [stray b1]
        | String b2 r2 =>
            match char2 b1 b2 with
            | Some ch => ch :: uchars r2
            | None =>
                match r2 with
                | EmptyString => stray b1 :: uchars r1
                | String b3 r3 =>
                    match char3 b1 b2 b3 with
                    | Some ch => ch :: uchars r3
                    | None =>
                        match r3 with
                        | EmptyString => stray b1 :: uchars r1
                        | String b4 r4 =>
                            match char4 b1 b2 b3 b4 with
                            | Some ch => ch :: uchars r4
                            | None => stray b1 :: uchars r1
                            end
                        end
                    end
                end
            end
        end
  end.

(** The text of a list of characters. *)
Fixpoint of_uchars (l : list uchar) : string :=
  match l with
  | [] => EmptyString
  | ch :: l' => String (fst (snd ch)) (snd (snd ch) ++ of_uchars l')
  end.

(** [c.isspace()] by code point: U+0009-000D, U+001C-001F, U+0020, U+0085,
    U+00A0, U+1680, U+2000-200A, U+2028, U+2029, U+202F, U+205F, U+3000. *)
Definition py_isspace (cp : N) : bool :=
  (((9 <=? cp) && (cp <=? 13)) || ((28 <=? cp) && (cp <=? 32))
   || (cp =? 133) || (cp =? 160) || (cp =? 5760)
   || ((8192 <=? cp) && (cp <=? 8202))
   || (cp =? 8232) || (cp =? 8233) || (cp =? 8239) || (cp =? 8287)
   || (cp =? 12288))%N.

Definition uchar_space (ch : uchar) : bool := py_isspace (code_point ch).

(** Dropping the leading whitespace of a list of characters. *)
Fixpoint drop_space (l : list uchar) : list uchar :=
  match l with
  | [] => []
  | ch :: l' => if uchar_space ch then drop_space l' else l
  end.

(** [s.strip()]: without the whitespace at either end. *)
Definition str_strip (s : string) : string :=
  of_uchars (rev (drop_space (rev (drop_space (uchars s))))).

(** A text of whitespace only; the empty text is one. *)
Definition all_space (s : string) : bool := forallb uchar_space (uchars s).

(** [if s:] *)
Definition str_truthy (s : string) : bool := negb (String.eqb s "").

(** [s.split(sep)] for a one-character separator: never empty, the empty
    string gives one empty segment. *)
Fixpoint str_split (sep : ascii) (s : string) : list string :=
  match s with
  | EmptyString => [EmptyString]
  | String c s' =>
      if Ascii.eqb c sep then EmptyString :: str_split sep s'
      else match str_split sep s' with
           | seg :: segs => String c seg :: segs
           | [] => [String c EmptyString]
           end
  end.

(** [sep.join(parts)] *)
Fixpoint str_join (sep : string) (parts : list string) : string :=
  match parts with
  | [] => ""
  | [p] => p
  | p :: rest => p ++ sep ++ str_join sep rest
  end.

(** ** [str] and [repr] *)

Definition hex_digit (d : N) : ascii :=
  if (d <? 10)%N then ascii_of_N (48 + d) else ascii_of_N (87 + d).

(** The last [width] hexadecimal digits of [n], in lowercase. *)
Fixpoint hex_digits (width : nat) (n : N) : string :=
  match width with
  | O => EmptyString
  | S w => hex_digits w (n / 16)%N ++ String (hex_digit (n mod 16)%N) ""
  end.

Definition backslash : ascii := ascii_of_nat 92.
Definition squote : ascii := ascii_of_nat 39.
Definition dquote : ascii := ascii_of_nat 34.

Definition contains_char (c : ascii) (s : string) : bool :=
  existsb (Ascii.eqb c) (list_ascii_of_string s).

(** A table for the closed examples below, right on the characters up to
    U+00FF: there every character from U+00A1 on is printable but the soft
    hyphen U+00AD. *)
Definition printable_latin1 : N -> bool :=
  fun cp => ((161 <=? cp) && negb (cp =? 173))%N.

Section Engine.

(** The interpreter's character table, as far as the code consults it:
    whether [repr] shows the character of a code point above U+007E as it
    is. It is false on the control, format, surrogate, private-use and
    unassigned characters and on the separators, and depends on the Unicode
    version of the interpreter. *)
Variable printable : N -> bool.

(** One character of a string literal as [repr] prints it inside the
    quote [q]. *)
Definition repr_char (q : ascii) (ch : uchar) : string :=
  let cp := code_point ch in
  if ((cp =? N_of_ascii q) || (cp =? 92))%N then String backslash (char_bytes ch)
  else if (cp =? 9)%N then String backslash "t"
  else if (cp =? 10)%N then String backslash "n"
  else if (cp =? 13)%N then String backslash "r"
  else if ((cp <? 32) || (cp =? 127))%N then
    String backslash (String "x" (hex_digits 2 cp))
  else if (cp <? 127)%N then char_bytes ch
  else if printable cp then char_bytes ch
  else if (cp <? 256)%N then String backslash (String "x" (hex_digits 2 cp))
  else if (cp <? 65536)%N then String backslash (String "u" (hex_digits 4 cp))
  else String backslash (String "U" (hex_digits 8 cp)).

Fixpoint repr_uchars (q : ascii) (l : list uchar) : string :=
  match l with
  | [] => EmptyString
  | ch :: l' => repr_char q ch ++ repr_uchars q l'
  end.

Definition repr_chars (q : ascii) (s : string) : string :=
  repr_uchars q (uchars s).

(** [repr(s)]: single quotes, unless the text has a single quote and no
    double quote. *)
Definition repr_str (s : string) : string :=
  let q : ascii :=
    if (contains_char squote s && negb (contains_char dquote s))%bool
    then dquote else squote in
  String q (repr_chars q s ++ String q "").

Definition repr_int (n : Z) : string := NilZero.string_of_int (Z.to_int n).

Fixpoint py_repr (v : pyval) : string :=
  match v with
  | VNone => "None"
  | VBool true => "True"
  | VBool false => "False"
  | VInt n => repr_int n
  | VStr s => repr_str s
  | VList l =>
      "[" ++ str_join ", "
        ((fix items (l : list pyval) : list string :=
            match l with
            | [] => []
            | x :: l' => py_repr x :: items l'
            end) l) ++ "]"
  | VDict d =>
      "{" ++ str_join ", "
        ((fix items (d : list (string * pyval)) : list string :=
            match d with
            | [] => []
            | (k, x) :: d' => (repr_str k ++ ": " ++ py_repr x) :: items d'
            end) d) ++ "}"
  end.

(** [str(v)] *)
Definition py_str (v : pyval) : string :=
  match v with
  | VStr s => s
  | _ => py_repr v
  end.


(** ** field_config.py *)

Definition FONT_NAME : string := "helv".
Definition FONT_SIZE : Z := 9.
Definition CHECKBOX_CHAR : string := "X".
Definition CHECKBOX_FONT_SIZE : Z := 10.

(** Field coordinates: (x, y) where y is from top of page. *)
Definition FIELD_COORDINATES : list (string * (Z * Z)) :=
  [ ("checkbox_adult", (33, 152));
    ("checkbox_minor", (82, 152));
    ("last_name", (35, 180));
    ("first_name", (315, 180));
    ("middle_name", (35, 214));
    ("place_of_birth", (315, 214));
    ("dob_day", (45, 253));
    ("dob_month", (100, 253));
    ("dob_year", (165, 253));
    ("checkbox_male", (407, 254));
    ("checkbox_female", (447, 254));
    ("national_id", (380, 270));
    ("checkbox_single", (110, 303));
    ("checkbox_married", (182, 303));
    ("checkbox_widow", (259, 303));
    ("checkbox_legally_separated", (342, 303));
    ("checkbox_annulled", (454, 303));
    ("present_address", (92, 318));
    ("contact_no", (75, 333));
    ("email", (335, 333));
    ("spouse_name", (90, 348));
    ("spouse_citizenship", (355, 348));
    ("father_name", (86, 362));
    ("father_citizenship", (351, 362));
    ("mother_maiden_name", (115, 376));
    ("mother_citizenship", (353, 376));
    ("checkbox_birth", (132, 395));
    ("checkbox_election", (189, 395));
    ("checkbox_naturalization", (254, 395));
    ("checkbox_ra9225", (337, 395));
    ("checkbox_others_citizenship", (409, 395));
    ("others_citizenship_text", (455, 394));
    ("checkbox_foreign_citizenship_yes", (170, 416));
    ("checkbox_foreign_citizenship_no", (193, 416));
    ("foreign_citizenship_country", (145, 424));
    ("checkbox_foreign_mode_birth", (95, 435));
    ("checkbox_foreign_mode_naturalization", (123, 435));
    ("checkbox_foreign_mode_others", (177, 435));
    ("foreign_mode_others_text", (220, 433));
    ("checkbox_military_yes", (409, 413));
    ("checkbox_military_no", (438, 413));
    ("military_country", (400, 421));
    ("checkbox_renounced_yes", (436, 439));
    ("checkbox_renounced_no", (465, 439));
    ("checkbox_foreign_passport_yes", (166, 459));
    ("checkbox_foreign_passport_no", (194, 459));
    ("foreign_passport_country", (145, 467));
    ("checkbox_ph_passport_yes", (439, 454));
    ("checkbox_ph_passport_no", (468, 454));
    ("ph_passport_number", (415, 462));
    ("ph_passport_date_of_issue", (340, 472));
    ("ph_passport_place_of_issue", (470, 472));
    ("accompanied_by", (115, 633));
    ("minor_relationship", (155, 642));
    ("accompanying_mobile", (170, 652));
    ("emergency_name", (420, 633));
    ("emergency_mobile", (340, 642));
    ("emergency_relationship", (480, 642));
    ("emergency_address", (365, 652)) ].

(** Mapping of data values to checkbox fields. *)
Definition CHECKBOX_MAPPINGS : list (string * list (string * string)) :=
  [ ("applicant_category",
      [ ("adult", "checkbox_adult");
        ("minor", "checkbox_minor") ]);
    ("sex",
      [ ("male", "checkbox_male");
        ("female", "checkbox_female") ]);
    ("civil_status",
      [ ("single", "checkbox_single");
        ("married", "checkbox_married");
        ("widow", "checkbox_widow");
        ("widower", "checkbox_widow");
        ("legally_separated", "checkbox_legally_separated");
        ("annulled", "checkbox_annulled") ]);
    ("acquired_by",
      [ ("birth", "checkbox_birth");
        ("election", "checkbox_election");
        ("naturalization", "checkbox_naturalization");
        ("ra9225", "checkbox_ra9225");
        ("r.a. 9225", "checkbox_ra9225");
        ("others", "checkbox_others_citizenship") ]);
    ("foreign_citizenship_mode",
      [ ("birth", "checkbox_foreign_mode_birth");
        ("naturalization", "checkbox_foreign_mode_naturalization");
        ("others", "checkbox_foreign_mode_others") ]) ].

(** Text field mappings from JSON path to coordinate key, in the order
    [.items()] yields them. *)
Definition TEXT_FIELD_MAPPINGS : list (string * string) :=
  [ ("personal_info.last_name", "last_name");
    ("personal_info.first_name", "first_name");
    ("personal_info.middle_name", "middle_name");
    ("personal_info.place_of_birth", "place_of_birth");
    ("personal_info.date_of_birth.day", "dob_day");
    ("personal_info.date_of_birth.month", "dob_month");
    ("personal_info.date_of_birth.year", "dob_year");
    ("personal_info.national_id", "national_id");
    ("personal_info.present_address", "present_address");
    ("personal_info.contact_no", "contact_no");
    ("personal_info.email", "email");
    ("family_info.spouse_name", "spouse_name");
    ("family_info.spouse_citizenship", "spouse_citizenship");
    ("family_info.father_name", "father_name");
    ("family_info.father_citizenship", "father_citizenship");
    ("family_info.mother_maiden_name", "mother_maiden_name");
    ("family_info.mother_citizenship", "mother_citizenship");
    ("citizenship_info.foreign_citizenship.country", "foreign_citizenship_country");
    ("citizenship_info.foreign_military.country", "military_country");
    ("citizenship_info.foreign_passport.country", "foreign_passport_country");
    ("citizenship_info.philippine_passport.number", "ph_passport_number");
    ("citizenship_info.philippine_passport.date_of_issue", "ph_passport_date_of_issue");
    ("citizenship_info.philippine_passport.place_of_issue", "ph_passport_place_of_issue");
    ("minor_info.accompanied_by", "accompanied_by");
    ("minor_info.relationship", "minor_relationship");
    ("minor_info.accompanying_mobile", "accompanying_mobile");
    ("emergency_contact.name", "emergency_name");
    ("emergency_contact.mobile", "emergency_mobile");
    ("emergency_contact.relationship", "emergency_relationship");
    ("emergency_contact.address", "emergency_address") ].

(** ** The page and its monad *)

(** One [page.insert_text(point, text, fontname=..., fontsize=...,
    color=(0, 0, 0))] call; the colour is black throughout. *)
Record overlay : Type := Overlay {
  ov_x : Z;
  ov_y : Z;
  ov_text : string;
  ov_font : string;
  ov_size : Z
}.

(** What has been drawn over the template page, oldest first. *)
Definition page : Type := list overlay.

(** A computation on a mutable object of type [S] that may raise; the
    state it returns is the object as the raise (or the return) leaves it. *)
Definition St (S A : Type) : Type := S -> S * result A.

Definition ret {S A} (a : A) : St S A := fun s => (s, Ok a).

Definition bind {S A B} (m : St S A) (k : A -> St S B) : St S B :=
  fun s =>
    match m s with
    | (s', Ok a) => k a s'
    | (s', Raise e) => (s', Raise e)
    end.

(** A step that leaves the object alone: a Python expression that may
    raise. *)
Definition eval {S A} (r : result A) : St S A := fun s => (s, r).

(** Computations on the page. *)
Definition M (A : Type) : Type := St page A.

Notation "x <- m ;; k" := (bind m (fun x => k))
  (at level 61, m at next level, right associativity).
Notation "' pat <- m ;; k" := (bind m (fun x => match x with pat => k end))
  (at level 61, pat pattern, m at next level, right associativity).
Notation "m ;; k" := (bind m (fun _ => k))
  (at level 61, right associativity).

Definition page_insert_text (x y : Z) (text font : string) (size : Z) : M unit :=
  fun p => ((p ++ [Overlay x y text font size])%list, Ok tt).

(** The page a computation leaves, and the marks it adds to a blank one. *)
Definition exec {A} (m : M A) (p : page) : page := fst (m p).
Definition outcome {A} (m : M A) (p : page) : result A := snd (m p).
Definition written {A} (m : M A) : list overlay := exec m [].

(** What is drawn at one insertion point, in drawing order. Two pages are
    the same document when they agree at every point. *)
Definition at_point (pt : Z * Z) (o : overlay) : bool :=
  ((ov_x o =? fst pt) && (ov_y o =? snd pt))%bool.

Definition drawn_at (p : page) (pt : Z * Z) : list overlay :=
  filter (at_point pt) p.

(** ** Python methods on record values *)

(** [v.get(key, default)] *)
Definition py_get (v : pyval) (key : string) (default : pyval) : result pyval :=
  match v with
  | VDict d => Ok (match dict_get d key with Some x => x | None => default end)
  | _ => Raise (AttributeError "get")
  end.

(** [v.lower()], [v.upper()] *)
Definition py_lower (v : pyval) : result string :=
  match v with
  | VStr s => Ok (str_lower s)
  | _ => Raise (AttributeError "lower")
  end.

Definition py_upper (v : pyval) : result string :=
  match v with
  | VStr s => Ok (str_upper s)
  | _ => Raise (AttributeError "upper")
  end.

(** [sub in s] on strings. *)
Fixpoint str_contains (sub s : string) : bool :=
  if String.prefix sub s then true
  else match s with
       | EmptyString => false
       | String _ s' => str_contains sub s'
       end.

(** [key in v] for a string key: key lookup on a dict, substring test on a
    string, membership in a list, and a [TypeError] on the values that are
    not containers. *)
Definition py_contains (key : string) (v : pyval) : result bool :=
  match v with
  | VDict d => Ok (dict_mem d key)
  | VStr s => Ok (str_contains key s)
  | VList l =>
      Ok (existsb (fun x => match x with
                            | VStr s => String.eqb s key
                            | _ => false
                            end) l)
  | _ => Raise TypeError
  end.

(** [v[key]] for a string key: only a dict can be subscripted by a
    string. *)
Definition py_getitem (v : pyval) (key : string) : result pyval :=
  match v with
  | VDict d => subscript d key
  | _ => Raise TypeError
  end.

(** ** fill_passport_form.py *)

Fixpoint get_nested_loop (value : pyval) (keys : list string) : result pyval :=
  match keys with
  | [] => Ok value
  | key :: keys' =>
      match (if isinstance_dict value then py_contains key value else Ok false) with
      | Raise e => Raise e
      | Ok true =>
          match py_getitem value key with
          | Ok value' => get_nested_loop value' keys'
          | Raise e => Raise e
          end
      | Ok false => Ok VNone
      end
  end.

Definition get_nested_value (data : pyval) (path : string) : result pyval :=
  get_nested_loop data (str_split "." path).

(** [sep.join(parts)] on Python values: a part that is not a string is a
    [TypeError]. *)
Fixpoint py_strings (parts : list pyval) : result (list string) :=
  match parts with
  | [] => Ok []
  | VStr s :: rest =>
      match py_strings rest with
      | Ok l => Ok (s :: l)
      | Raise e => Raise e
      end
  | _ :: _ => Raise TypeError
  end.

Definition py_join (sep : string) (parts : list pyval) : result string :=
  match py_strings parts with
  | Ok l => Ok (str_join sep l)
  | Raise e => Raise e
  end.

(** The loop of [extract_full_name] over [first, middle, last]. *)
Fixpoint name_parts_loop (parts : list pyval) (name_parts : list pyval)
  : result (list pyval) :=
  match parts with
  | [] => Ok name_parts
  | part :: rest =>
      if py_truthy part then
        match py_upper part with
        | Raise e => Raise e
        | Ok up =>
            if negb (String.eqb up "N/A")
            then name_parts_loop rest (name_parts ++ [part])%list
            else name_parts_loop rest name_parts
        end
      else name_parts_loop rest name_parts
  end.

Definition extract_full_name (data : pyval) : result string :=
  match py_get data "personal_info" (VDict []) with
  | Raise e => Raise e
  | Ok personal =>
  match py_get personal "first_name" (VStr "") with
  | Raise e => Raise e
  | Ok first_name =>
  match py_get personal "middle_name" (VStr "") with
  | Raise e => Raise e
  | Ok middle_name =>
  match py_get personal "last_name" (VStr "") with
  | Raise e => Raise e
  | Ok last_name =>
  match name_parts_loop [first_name; middle_name; last_name] [] with
  | Raise e => Raise e
  | Ok name_parts => py_join " " name_parts
  end end end end end.

Definition insert_text (x y : Z) (text : string) (fontsize : Z) : M unit :=
  if (str_truthy text && str_truthy (str_strip text))%bool
  then page_insert_text x y text FONT_NAME fontsize
  else ret tt.

Definition insert_checkbox (x y : Z) : M unit :=
  page_insert_text x y CHECKBOX_CHAR FONT_NAME CHECKBOX_FONT_SIZE.

(** The block that closes every checkbox step:
    [if key in FIELD_COORDINATES: x, y = FIELD_COORDINATES[key];
     insert_checkbox(page, x, y)]. *)
Definition mark_field (checkbox_key : string) : M unit :=
  if dict_mem FIELD_COORDINATES checkbox_key then
    ' (x, y) <- eval (subscript FIELD_COORDINATES checkbox_key) ;;
    insert_checkbox x y
  else ret tt.

(** [if value in CHECKBOX_MAPPINGS[group]: checkbox_key =
     CHECKBOX_MAPPINGS[group][value]; ...]. *)
Definition mark_mapped (group value : string) : M unit :=
  table <- eval (subscript CHECKBOX_MAPPINGS group) ;;
  if dict_mem table value then
    table' <- eval (subscript CHECKBOX_MAPPINGS group) ;;
    checkbox_key <- eval (subscript table' value) ;;
    mark_field checkbox_key
  else ret tt.

(** [section.get(key, "").lower()] *)
Definition get_lower (section : pyval) (key : string) : M string :=
  v <- eval (py_get section key (VStr "")) ;;
  eval (py_lower v).

(** Applicant category (adult/minor) *)
Definition cb_applicant_category (app_type : pyval) : M unit :=
  category <- get_lower app_type "applicant_category" ;;
  mark_mapped "applicant_category" category.

(** Processing type *)
Definition cb_processing_type (app_type : pyval) : M unit :=
  proc_type <- get_lower app_type "processing_type" ;;
  mark_mapped "processing_type" proc_type.

(** Sex *)
Definition cb_sex (personal : pyval) : M unit :=
  sex <- get_lower personal "sex" ;;
  mark_mapped "sex" sex.

(** Civil Status *)
Definition cb_civil_status (personal : pyval) : M unit :=
  lowered <- get_lower personal "civil_status" ;;
  let civil_status := str_replace " " "_" lowered in
  mark_mapped "civil_status" civil_status.

(** Acquired by *)
Definition cb_acquired_by (citizenship : pyval) : M unit :=
  acquired_by <- get_lower citizenship "acquired_by" ;;
  mark_mapped "acquired_by" acquired_by.

(** Foreign citizenship Yes/No, and the mode of acquisition *)
Definition cb_foreign_citizenship (citizenship : pyval) : M unit :=
  foreign_cit <- eval (py_get citizenship "foreign_citizenship" (VDict [])) ;;
  acquired <- eval (py_get foreign_cit "acquired" VNone) ;;
  if py_truthy acquired then
    mark_field "checkbox_foreign_citizenship_yes" ;;
    mode <- get_lower foreign_cit "mode" ;;
    mark_mapped "foreign_citizenship_mode" mode
  else
    mark_field "checkbox_foreign_citizenship_no".

(** The yes/no steps that read [section.get(sub, {}).get(flag)]. *)
Definition cb_yes_no (citizenship : pyval) (sub flag yes_key no_key : string)
  : M unit :=
  section <- eval (py_get citizenship sub (VDict [])) ;;
  v <- eval (py_get section flag VNone) ;;
  if py_truthy v then mark_field yes_key else mark_field no_key.

(** Foreign military Yes/No *)
Definition cb_foreign_military (citizenship : pyval) : M unit :=
  cb_yes_no citizenship "foreign_military" "served"
    "checkbox_military_yes" "checkbox_military_no".

(** Renounced Philippine citizenship Yes/No *)
Definition cb_renounced (citizenship : pyval) : M unit :=
  v <- eval (py_get citizenship "renounced_philippine_citizenship" VNone) ;;
  if py_truthy v then mark_field "checkbox_renounced_yes"
  else mark_field "checkbox_renounced_no".

(** Foreign passport Yes/No *)
Definition cb_foreign_passport (citizenship : pyval) : M unit :=
  cb_yes_no citizenship "foreign_passport" "issued"
    "checkbox_foreign_passport_yes" "checkbox_foreign_passport_no".

(** Philippine passport Yes/No *)
Definition cb_ph_passport (citizenship : pyval) : M unit :=
  cb_yes_no citizenship "philippine_passport" "issued"
    "checkbox_ph_passport_yes" "checkbox_ph_passport_no".

Definition fill_checkboxes (data : pyval) : M unit :=
  app_type <- eval (py_get data "application_type" (VDict [])) ;;
  cb_applicant_category app_type ;;
  cb_processing_type app_type ;;
  personal <- eval (py_get data "personal_info" (VDict [])) ;;
  cb_sex personal ;;
  cb_civil_status personal ;;
  citizenship <- eval (py_get data "citizenship_info" (VDict [])) ;;
  cb_acquired_by citizenship ;;
  cb_foreign_citizenship citizenship ;;
  cb_foreign_military citizenship ;;
  cb_renounced citizenship ;;
  cb_foreign_passport citizenship ;;
  cb_ph_passport citizenship.

(** The body of the loop of [fill_text_fields] for one table entry. *)
Definition fill_text_field (data : pyval) (json_path coord_key : string) : M unit :=
  value <- eval (get_nested_value data json_path) ;;
  if (py_truthy value && dict_mem FIELD_COORDINATES coord_key)%bool then
    ' (x, y) <- eval (subscript FIELD_COORDINATES coord_key) ;;
    insert_text x y (py_str value) FONT_SIZE
  else ret tt.

Fixpoint fill_text_loop (data : pyval) (items : list (string * string)) : M unit :=
  match items with
  | [] => ret tt
  | (json_path, coord_key) :: rest =>
      fill_text_field data json_path coord_key ;;
      fill_text_loop data rest
  end.

Definition fill_text_fields (data : pyval) : M unit :=
  fill_text_loop data TEXT_FIELD_MAPPINGS.

(** ** The template document and [generate_filled_pdf_bytes] *)

Inductive handle_state : Type := NotOpened | Opened | Closed.

(** The [fitz] document of one call: its pages and whether the template
    handle is held. *)
Record session : Type := Session {
  s_handle : handle_state;
  s_doc : list page
}.

Definition no_session : session := Session NotOpened [].

(** The template store: what [fitz.open] finds at a path. *)
Definition store : Type := string -> option (list page).

Definition G (A : Type) : Type := St session A.

(** [doc = fitz.open(template_path)] *)
Definition fitz_open (fs : store) (template_path : string) : G unit :=
  fun s =>
    match fs template_path with
    | Some doc => (Session Opened doc, Ok tt)
    | None => (s, Raise (FileNotFoundError template_path))
    end.

(** A computation on [doc[0]]: the page object is the document's first
    page, so what is drawn on it is drawn on the document. Subscripting a
    document without pages is an [IndexError]. *)
Definition first_page {A} (m : M A) : G A :=
  fun s =>
    match s_doc s with
    | [] => (s, Raise IndexError)
    | pg :: rest =>
        let (pg', r) := m pg in (Session (s_handle s) (pg' :: rest), r)
    end.

(** [page = doc[0]] *)
Definition doc_getitem0 : G unit := first_page (ret tt).

(** [doc.tobytes()]: the serialised document stands for its bytes. *)
Definition doc_tobytes : G (list page) := fun s => (s, Ok (s_doc s)).

(** [doc.close()] *)
Definition doc_close : G unit := fun s => (Session Closed (s_doc s), Ok tt).

Definition generate_filled_pdf_bytes (fs : store) (data : pyval)
    (template_path : string) : G (list page * string) :=
  fitz_open fs template_path ;;
  doc_getitem0 ;;
  first_page (fill_checkboxes data) ;;
  first_page (fill_text_fields data) ;;
  pdf_bytes <- doc_tobytes ;;
  doc_close ;;
  full_name <- eval (extract_full_name data) ;;
  ret (pdf_bytes, full_name).

(** ** app.py *)

(** The loop of [validate_applicant_data] over [required_sections]: the
    message of the first missing section, if any. *)
Fixpoint validate_sections (data : pyval) (sections : list string)
  : result (option string) :=
  match sections with
  | [] => Ok None
  | section :: rest =>
      match py_contains section data with
      | Raise e => Raise e
      | Ok false => Ok (Some ("Missing required section: " ++ section))
      | Ok true => validate_sections data rest
      end
  end.

(** The loop over [required_fields]:
    [if field not in personal or not personal[field]]. *)
Fixpoint validate_fields (personal : pyval) (fields : list string)
  : result (bool * option string) :=
  match fields with
  | [] => Ok (true, None)
  | field :: rest =>
      match py_contains field personal with
      | Raise e => Raise e
      | Ok false =>
          Ok (false, Some ("Missing required field: personal_info." ++ field))
      | Ok true =>
          match py_getitem personal field with
          | Raise e => Raise e
          | Ok v =>
              if negb (py_truthy v)
              then Ok (false, Some ("Missing required field: personal_info." ++ field))
              else validate_fields personal rest
          end
      end
  end.

(** Returns [(is_valid, error_message)]. *)
Definition validate_applicant_data (data : pyval) : result (bool * option string) :=
  match validate_sections data ["personal_info"] with
  | Raise e => Raise e
  | Ok (Some msg) => Ok (false, Some msg)
  | Ok None =>
      match py_get data "personal_info" (VDict []) with
      | Raise e => Raise e
      | Ok personal => validate_fields personal ["last_name"; "first_name"]
      end
  end.

(** What the handlers see of a request: [request.is_json] and the outcome
    of [request.get_json()]. *)
Record request : Type := Request {
  is_json : bool;
  get_json : result pyval
}.

(** The dict [send_to_external_api] returns: success with the response of
    the service, or failure with an error text. The function itself, which
    posts over the network, is a parameter of the handlers. *)
Inductive api_result : Type :=
| ApiSuccess (response : pyval)
| ApiFailure (error : string).

(** The value under ["error"] in a JSON reply: a message, [None], or the
    text [str(e)] of a caught exception, kept as the exception. *)
Inductive error_value : Type :=
| ErrorMessage (msg : string)
| ErrorNone
| ErrorOf (e : exn).

Inductive reply_body : Type :=
| ErrorBody (error : error_value)
| SentBody (applicant_name : string) (external_api_response : pyval)
| SendFailedBody (applicant_name : string) (error : string)
| PdfBody (pdf_bytes : list page) (filename : string).

Record reply : Type := Reply {
  status : Z;
  body : reply_body
}.

Definition error_of_message (error_msg : option string) : error_value :=
  match error_msg with
  | Some msg => ErrorMessage msg
  | None => ErrorNone
  end.

(** The [try] block of [webhook]. *)
Definition webhook_try (req : request) (path_exists : string -> bool)
    (fs : store) (PDF_TEMPLATE_PATH : string)
    (send_to_external_api : list page -> string -> result api_result)
  : result reply :=
  if negb (is_json req) then
    Ok (Reply 400 (ErrorBody (ErrorMessage "Content-Type must be application/json")))
  else
    match get_json req with
    | Raise e => Raise e
    | Ok data =>
    match validate_applicant_data data with
    | Raise e => Raise e
    | Ok (is_valid, error_msg) =>
        if negb is_valid then
          Ok (Reply 400 (ErrorBody (error_of_message error_msg)))
        else if negb (path_exists PDF_TEMPLATE_PATH) then
          Ok (Reply 500 (ErrorBody (ErrorMessage "PDF template not found")))
        else
          match snd (generate_filled_pdf_bytes fs data PDF_TEMPLATE_PATH no_session) with
          | Raise e => Raise e
          | Ok (pdf_bytes, full_name) =>
              match send_to_external_api pdf_bytes full_name with
              | Raise e => Raise e
              | Ok (ApiSuccess response) =>
                  Ok (Reply 200 (SentBody full_name response))
              | Ok (ApiFailure error) =>
                  Ok (Reply 502 (SendFailedBody full_name error))
              end
          end
    end end.

(** [webhook]: any exception of the block becomes a 500 reply. *)
Definition webhook (req : request) (path_exists : string -> bool)
    (fs : store) (PDF_TEMPLATE_PATH : string)
    (send_to_external_api : list page -> string -> result api_result)
  : reply :=
  match webhook_try req path_exists fs PDF_TEMPLATE_PATH send_to_external_api with
  | Ok r => r
  | Raise e => Reply 500 (ErrorBody (ErrorOf e))
  end.

(** The [try] block of [generate_only]. *)
Definition generate_only_try (req : request) (fs : store)
    (PDF_TEMPLATE_PATH : string) : result reply :=
  if negb (is_json req) then
    Ok (Reply 400 (ErrorBody (ErrorMessage "Content-Type must be application/json")))
  else
    match get_json req with
    | Raise e => Raise e
    | Ok data =>
    match validate_applicant_data data with
    | Raise e => Raise e
    | Ok (is_valid, error_msg) =>
        if negb is_valid then
          Ok (Reply 400 (ErrorBody (error_of_message error_msg)))
        else
          match snd (generate_filled_pdf_bytes fs data PDF_TEMPLATE_PATH no_session) with
          | Raise e => Raise e
          | Ok (pdf_bytes, full_name) =>
              Ok (Reply 200
                    (PdfBody pdf_bytes
                       ("passport_form_" ++ str_replace " " "_" full_name ++ ".pdf")))
          end
    end end.

Definition generate_only (req : request) (fs : store)
    (PDF_TEMPLATE_PATH : string) : reply :=
  match generate_only_try req fs PDF_TEMPLATE_PATH with
  | Ok r => r
  | Raise e => Reply 500 (ErrorBody (ErrorOf e))
  end.

(** ** Vocabulary of the statements *)

(** The mark of a checkbox field: one X at its coordinate, or nothing when
    the field has no coordinate. *)
Definition field_marks (checkbox_key : string) : list overlay :=
  match dict_get FIELD_COORDINATES checkbox_key with
  | Some (x, y) => [Overlay x y CHECKBOX_CHAR FONT_NAME CHECKBOX_FONT_SIZE]
  | None => []
  end.

(** The marks of a grouped value: the field the group table maps it to. *)
Definition group_marks (group value : string) : list overlay :=
  match dict_get CHECKBOX_MAPPINGS group with
  | Some table =>
      match dict_get table value with
      | Some checkbox_key => field_marks checkbox_key
      | None => []
      end
  | None => []
  end.

(** The fields of the five yes/no groups. *)
Definition yes_no_fields : list string :=
  [ "checkbox_foreign_citizenship_yes"; "checkbox_foreign_citizenship_no";
    "checkbox_military_yes"; "checkbox_military_no";
    "checkbox_renounced_yes"; "checkbox_renounced_no";
    "checkbox_foreign_passport_yes"; "checkbox_foreign_passport_no";
    "checkbox_ph_passport_yes"; "checkbox_ph_passport_no" ].

(** Every field the checkbox pass names, and every field of the scalar
    table. *)
Definition checkbox_fields : list string :=
  (flat_map (fun g => map snd (snd g)) CHECKBOX_MAPPINGS ++ yes_no_fields)%list.

Definition text_fields : list string := map snd TEXT_FIELD_MAPPINGS.

Fixpoint coords_of (keys : list string) : list (Z * Z) :=
  match keys with
  | [] => []
  | k :: keys' =>
      match dict_get FIELD_COORDINATES k with
      | Some c => c :: coords_of keys'
      | None => coords_of keys'
      end
  end.

Definition coord_eqb (a b : Z * Z) : bool :=
  ((fst a =? fst b) && (snd a =? snd b))%bool.

Definition coord_in (c : Z * Z) (l : list (Z * Z)) : bool :=
  existsb (coord_eqb c) l.

Fixpoint distinct_coords (l : list (Z * Z)) : bool :=
  match l with
  | [] => true
  | c :: l' => (negb (coord_in c l') && distinct_coords l')%bool
  end.

Definition checkbox_coords : list (Z * Z) := coords_of checkbox_fields.
Definition text_coords : list (Z * Z) := coords_of text_fields.

(** What one entry of the scalar table draws. *)
Definition text_field_marks (data : pyval) (entry : string * string)
  : list overlay :=
  match get_nested_value data (fst entry),
        dict_get FIELD_COORDINATES (snd entry) with
  | Ok value, Some (x, y) =>
      if (py_truthy value && negb (all_space (py_str value)))%bool
      then [Overlay x y (py_str value) FONT_NAME FONT_SIZE]
      else []
  | _, _ => []
  end.

(** A name part counts when it is a string other than the empty one and
    N/A in any letter case. *)
Definition name_text (v : pyval) : option string :=
  match v with
  | VStr s =>
      if (String.eqb s "" || String.eqb (str_upper s) "N/A")%bool
      then None else Some s
  | _ => None
  end.

(** A name value [extract_full_name] accepts: a string, or any value that
    is false in a condition ([None], [False], [0], an empty list or dict). *)
Definition name_value_ok (v : pyval) : bool :=
  match v with
  | VStr _ => true
  | _ => negb (py_truthy v)
  end.

Fixpoint present_names (parts : list pyval) : list string :=
  match parts with
  | [] => []
  | v :: rest =>
      match name_text v with
      | Some s => s :: present_names rest
      | None => present_names rest
      end
  end.

(** The normalisation the specification words: lowercase, trim, spaces to
    underscores. *)
Definition spec_normalize (s : string) : string :=
  str_replace " " "_" (str_strip (str_lower s)).

(** Sample records. *)
Definition record_place_mapping : pyval :=
  VDict [("personal_info",
          VDict [("last_name", VStr "Santos");
                 ("first_name", VStr "Maria");
                 ("place_of_birth", VDict [("city", VStr "Cebu")])])].

Definition record_blank_last_name : pyval :=
  VDict [("personal_info", VDict [("last_name", VStr " ")])].

Definition record_numeric_middle_name : pyval :=
  VDict [("personal_info",
          VDict [("first_name", VStr "Maria");
                 ("middle_name", VInt 5);
                 ("last_name", VStr "Santos")])].

Definition record_names (first middle last : pyval) : pyval :=
  VDict [("personal_info",
          VDict [("first_name", first);
                 ("middle_name", middle);
                 ("last_name", last)])].

Definition record_minimal : pyval :=
  VDict [("personal_info",
          VDict [("last_name", VStr "Santos"); ("first_name", VStr "Maria")])].

Definition record_served : pyval :=
  VDict [("personal_info",
          VDict [("last_name", VStr "Santos"); ("first_name", VStr "Maria")]);
         ("citizenship_info",
          VDict [("foreign_military", VDict [("served", VBool true)])])].

Definition record_spaced_category : pyval :=
  VDict [("application_type", VDict [("applicant_category", VStr " Adult")]);
         ("personal_info",
          VDict [("last_name", VStr "Santos"); ("first_name", VStr "Maria")])].

(** A space, a no-break space (U+00A0) and an em space (U+2003). *)
Definition blank_text : string :=
  String " " (String (ascii_of_nat 194) (String (ascii_of_nat 160)
    (String (ascii_of_nat 226) (String (ascii_of_nat 128)
      (String (ascii_of_nat 131) ""))))).

Definition record_unicode_blank : pyval :=
  VDict [("personal_info", VDict [("last_name", VStr blank_text)])].

(** A store with one template of one blank page. *)
Definition one_page_store : store := fun _ => Some [[]].

(** The steps of the checkbox pass, in order. *)
Definition checkbox_steps : list (pyval -> M unit) :=
  [ cb_applicant_category; cb_processing_type; cb_sex; cb_civil_status;
    cb_acquired_by; cb_foreign_citizenship; cb_foreign_military;
    cb_renounced; cb_foreign_passport; cb_ph_passport ].

(** Two pages are the same document when the same overlays are drawn, in
    the same order, at every insertion point. *)
Definition same_document (p q : page) : Prop :=
  forall pt : Z * Z, drawn_at p pt = drawn_at q pt.

(** A computation that, whatever the page, appends [marks] to it and ends
    with [r]: the passes never read the page. *)
Definition appends {A} (m : M A) (marks : list overlay) (r : result A) : Prop :=
  forall p : page, m p = ((p ++ marks)%list, r).

(** ... and draws only at the points of [pts]. *)
Definition draws_within {A} (pts : list (Z * Z)) (m : M A) : Prop :=
  exists marks r,
    appends m marks r /\
    Forall (fun o => coord_in (ov_x o, ov_y o) pts = true) marks.

(** The mark of a checkbox: the X glyph in the checkbox font and size. *)
Definition checkbox_mark (o : overlay) : Prop :=
  ov_text o = CHECKBOX_CHAR /\ ov_font o = FONT_NAME /\
  ov_size o = CHECKBOX_FONT_SIZE.

(** A computation that appends at most [n] marks, all checkbox marks. *)
Definition marks_at_most {A} (n : nat) (m : M A) : Prop :=
  exists marks r,
    appends m marks r /\ (length marks <= n)%nat /\ Forall checkbox_mark marks.

(** The grouped and yes/no steps that name one field each. *)
Definition single_mark_steps : list (pyval -> M unit) :=
  [ cb_applicant_category; cb_processing_type; cb_sex; cb_civil_status;
    cb_acquired_by; cb_foreign_military; cb_renounced; cb_foreign_passport;
    cb_ph_passport ].

(** The same steps, each with the points of the fields of its group. *)
Definition step_points : list ((pyval -> M unit) * list (Z * Z)) :=
  [ (cb_applicant_category, [(33, 152); (82, 152)]);
    (cb_processing_type, []);
    (cb_sex, [(407, 254); (447, 254)]);
    (cb_civil_status,
     [(110, 303); (182, 303); (259, 303); (342, 303); (454, 303)]);
    (cb_acquired_by,
     [(132, 395); (189, 395); (254, 395); (337, 395); (409, 395)]);
    (cb_foreign_military, [(409, 413); (438, 413)]);
    (cb_renounced, [(436, 439); (465, 439)]);
    (cb_foreign_passport, [(166, 459); (194, 459)]);
    (cb_ph_passport, [(439, 454); (468, 454)]) ].

(** The yes/no steps that read a flag inside a sub-section: the step, the
    sub-section, the flag, and the points of the yes and the no field. *)
Definition sub_section_steps
  : list ((pyval -> M unit) * string * string * (Z * Z) * (Z * Z)) :=
  [ (cb_foreign_military, "foreign_military", "served", (409, 413), (438, 413));
    (cb_foreign_passport, "foreign_passport", "issued", (166, 459), (194, 459));
    (cb_ph_passport, "philippine_passport", "issued", (439, 454), (468, 454)) ].

Definition checkbox_at (pt : Z * Z) : overlay :=
  Overlay (fst pt) (snd pt) CHECKBOX_CHAR FONT_NAME CHECKBOX_FONT_SIZE.

(** * Proofs *)

(** ** The monad *)

Lemma appends_ret {A} (a : A) : appends (ret a) [] (Ok a).
Proof. intros p. unfold ret. now rewrite app_nil_r. Qed.

Lemma appends_eval {A} (r : result A) : appends (eval r) [] r.
Proof. intros p. unfold eval. now rewrite app_nil_r. Qed.

Lemma appends_insert x y text font size :
  appends (page_insert_text x y text font size)
          [Overlay x y text font size] (Ok tt).
Proof. intros p. reflexivity. Qed.

Lemma appends_bind_ok {A B} (m : M A) (k : A -> M B) ms a ks r :
  appends m ms (Ok a) -> appends (k a) ks r ->
  appends (bind m k) (ms ++ ks)%list r.
Proof.
  intros Hm Hk p. unfold bind. rewrite Hm, Hk. now rewrite app_assoc.
Qed.

Lemma appends_bind_raise {A B} (m : M A) (k : A -> M B) ms e :
  appends m ms (Raise e) -> appends (bind m k) ms (Raise e).
Proof. intros Hm p. unfold bind. now rewrite Hm. Qed.

Lemma appends_eval_bind {A B} (r : result A) (k : A -> M B) :
  forall p, bind (eval r) k p =
            match r with Ok a => k a p | Raise e => (p, Raise e) end.
Proof. intros p. unfold bind, eval. now destruct r. Qed.

Lemma appends_exec {A} (m : M A) marks r p :
  appends m marks r -> exec m p = (p ++ marks)%list.
Proof. intros H. unfold exec. now rewrite H. Qed.

Lemma appends_outcome {A} (m : M A) marks r p :
  appends m marks r -> outcome m p = r.
Proof. intros H. unfold outcome. now rewrite H. Qed.

Lemma appends_written {A} (m : M A) marks r :
  appends m marks r -> written m = marks.
Proof. intros H. unfold written. now rewrite (appends_exec _ _ _ _ H). Qed.

(** ** Checkbox steps *)

Lemma mark_field_appends key :
  appends (mark_field key) (field_marks key) (Ok tt).
Proof.
  intros p. unfold mark_field, field_marks, dict_mem, subscript.
  destruct (dict_get FIELD_COORDINATES key) as [[x y]|].
  - reflexivity.
  - unfold ret. now rewrite app_nil_r.
Qed.

Lemma mark_mapped_appends group value :
  appends (mark_mapped group value) (group_marks group value)
    (match dict_get CHECKBOX_MAPPINGS group with
     | Some _ => Ok tt
     | None => Raise (KeyError group)
     end).
Proof.
  intros p. unfold mark_mapped, group_marks, subscript, dict_mem.
  rewrite appends_eval_bind.
  destruct (dict_get CHECKBOX_MAPPINGS group) as [table|].
  - destruct (dict_get table value) as [key|] eqn:Ek.
    + rewrite appends_eval_bind, appends_eval_bind, Ek.
      apply mark_field_appends.
    + unfold ret. now rewrite app_nil_r.
  - now rewrite app_nil_r.
Qed.

Lemma get_lower_appends section key :
  appends (get_lower section key) []
    (match py_get section key (VStr "") with
     | Ok v => py_lower v
     | Raise e => Raise e
     end).
Proof.
  intros p. unfold get_lower. rewrite appends_eval_bind.
  destruct (py_get section key (VStr "")); unfold eval; now rewrite app_nil_r.
Qed.

(** The processing-type step subscripts [CHECKBOX_MAPPINGS] with a group
    the table does not have. *)
Lemma cb_processing_type_raises app_type :
  exists e, appends (cb_processing_type app_type) [] (Raise e).
Proof.
  unfold cb_processing_type.
  pose proof (get_lower_appends app_type "processing_type") as H.
  destruct (py_get app_type "processing_type" (VStr "")) as [v|e].
  - destruct (py_lower v) as [s|e].
    + exists (KeyError "processing_type").
      change (@nil overlay) with ([] ++ group_marks "processing_type" s)%list.
      eapply appends_bind_ok; [exact H|].
      apply (mark_mapped_appends "processing_type" s).
    + exists e. now apply appends_bind_raise.
  - exists e. now apply appends_bind_raise.
Qed.

Lemma group_marks_applicant_category value :
  group_marks "applicant_category" value = [] \/
  group_marks "applicant_category" value = field_marks "checkbox_adult" \/
  group_marks "applicant_category" value = field_marks "checkbox_minor".
Proof.
  unfold group_marks. simpl.
  destruct (String.eqb value "adult"); [now right; left|].
  destruct (String.eqb value "minor"); [now right; right|].
  now left.
Qed.

Lemma cb_applicant_category_appends app_type :
  exists marks r,
    appends (cb_applicant_category app_type) marks r /\
    (marks = [] \/ marks = field_marks "checkbox_adult" \/
     marks = field_marks "checkbox_minor").
Proof.
  unfold cb_applicant_category.
  pose proof (get_lower_appends app_type "applicant_category") as H.
  destruct (py_get app_type "applicant_category" (VStr "")) as [v|e].
  - destruct (py_lower v) as [s|e].
    + exists (group_marks "applicant_category" s), (Ok tt). split.
      * change (group_marks "applicant_category" s)
          with ([] ++ group_marks "applicant_category" s)%list.
        eapply appends_bind_ok; [exact H|].
        apply (mark_mapped_appends "applicant_category" s).
      * apply group_marks_applicant_category.
    + exists [], (Raise e). split; [now apply appends_bind_raise | now left].
  - exists [], (Raise e). split; [now apply appends_bind_raise | now left].
Qed.

(** [fill_checkboxes] never returns: it raises at the processing-type step
    at the latest, having drawn at most the applicant-category mark. *)
Lemma fill_checkboxes_appends data :
  exists marks e,
    appends (fill_checkboxes data) marks (Raise e) /\
    (marks = [] \/ marks = field_marks "checkbox_adult" \/
     marks = field_marks "checkbox_minor").
Proof.
  unfold fill_checkboxes.
  destruct (py_get data "application_type" (VDict [])) as [app_type|e] eqn:E.
  - destruct (cb_applicant_category_appends app_type) as (marks & r & Hc & Hm).
    destruct (cb_processing_type_raises app_type) as (e & Hp).
    destruct r as [[]|e'].
    + exists marks, e. split; [|exact Hm].
      intros p. rewrite appends_eval_bind.
      replace marks with (marks ++ [])%list by apply app_nil_r.
      eapply appends_bind_ok; [exact Hc|].
      now apply appends_bind_raise.
    + exists marks, e'. split; [|exact Hm].
      intros p. rewrite appends_eval_bind.
      now apply appends_bind_raise.
  - exists [], e. split; [|now left].
    intros p. rewrite appends_eval_bind. now rewrite app_nil_r.
Qed.

(** The two coordinates the pass can reach are not those of a yes/no
    field. *)
Lemma reachable_marks_not_yes_no marks :
  marks = [] \/ marks = field_marks "checkbox_adult" \/
  marks = field_marks "checkbox_minor" ->
  forallb (fun o => negb (coord_in (ov_x o, ov_y o) (coords_of yes_no_fields)))
          marks = true.
Proof. intros [-> | [-> | ->]]; reflexivity. Qed.

(** ** [generate_filled_pdf_bytes] *)

Lemma first_page_fill_checkboxes data s :
  exists e, snd (first_page (fill_checkboxes data) s) = Raise e /\
            s_handle (fst (first_page (fill_checkboxes data) s)) = s_handle s.
Proof.
  unfold first_page. destruct (s_doc s) as [|pg rest].
  - now exists IndexError.
  - destruct (fill_checkboxes_appends data) as (marks & e & H & _).
    rewrite H. now exists e.
Qed.

(** Once the template is open, the call raises with the handle held. *)
Lemma generate_after_open fs data path doc s :
  fs path = Some doc ->
  exists e s',
    generate_filled_pdf_bytes fs data path s = (s', Raise e) /\
    s_handle s' = Opened.
Proof.
  intros Hfs. unfold generate_filled_pdf_bytes.
  unfold bind at 1. unfold fitz_open at 1. rewrite Hfs.
  unfold bind at 1. unfold doc_getitem0, first_page at 1. simpl s_doc.
  destruct doc as [|pg rest].
  - now exists IndexError, (Session Opened []).
  - cbn [ret s_handle]. unfold bind at 1.
    destruct (first_page_fill_checkboxes data (Session Opened (pg :: rest)))
      as (e & He & Hh).
    destruct (first_page (fill_checkboxes data) (Session Opened (pg :: rest)))
      as [s' r].
    simpl in He, Hh. subst r. now exists e, s'.
Qed.

(** ** Strings *)

Lemma drop_space_all l : forallb uchar_space l = true -> drop_space l = [].
Proof.
  induction l as [|ch l IH]; cbn [forallb drop_space]; [reflexivity|].
  destruct (uchar_space ch); cbn [andb]; [exact IH | discriminate].
Qed.

Lemma drop_space_head l :
  forallb uchar_space l = false ->
  exists ch t, drop_space l = ch :: t /\ uchar_space ch = false.
Proof.
  induction l as [|ch l IH]; cbn [forallb drop_space]; [discriminate|].
  destruct (uchar_space ch) eqn:E; cbn [andb]; [exact IH|].
  intros _. now exists ch, l.
Qed.

Lemma drop_space_last l ch :
  uchar_space ch = false -> drop_space (l ++ [ch]) <> [].
Proof.
  intros E. induction l as [|c l IH]; cbn [app drop_space].
  - rewrite E. discriminate.
  - destruct (uchar_space c); [exact IH | discriminate].
Qed.

Lemma of_uchars_empty l : of_uchars l = "" -> l = [].
Proof. destruct l; [reflexivity | discriminate]. Qed.

Lemma str_strip_truthy s : str_truthy (str_strip s) = negb (all_space s).
Proof.
  unfold str_truthy, str_strip, all_space.
  destruct (forallb uchar_space (uchars s)) eqn:E.
  - now rewrite (drop_space_all _ E).
  - destruct (drop_space_head _ E) as (ch & t & -> & Hch).
    cbn [rev]. pose proof (drop_space_last (rev t) ch Hch) as Hne.
    destruct (drop_space (rev t ++ [ch])) as [|c l] eqn:Ed; [now elim Hne|].
    cbn [rev].
    destruct (of_uchars (rev l ++ [c])) eqn:Eo; [|reflexivity].
    apply of_uchars_empty in Eo. now destruct (rev l).
Qed.

(** The guard of [insert_text] is the test for a character that is not
    whitespace. *)
Lemma insert_text_guard text :
  (str_truthy text && str_truthy (str_strip text))%bool = negb (all_space text).
Proof.
  rewrite str_strip_truthy. destruct text; reflexivity.
Qed.

Lemma insert_text_appends x y text size :
  appends (insert_text x y text size)
    (if all_space text then [] else [Overlay x y text FONT_NAME size]) (Ok tt).
Proof.
  unfold insert_text. rewrite insert_text_guard.
  destruct (all_space text); simpl.
  - apply appends_ret.
  - apply appends_insert.
Qed.

(** ** Coordinates *)

Lemma coord_eqb_eq a b : coord_eqb a b = true <-> a = b.
Proof.
  destruct a as [a1 a2], b as [b1 b2]. unfold coord_eqb. simpl.
  rewrite andb_true_iff, !Z.eqb_eq. split.
  - now intros [-> ->].
  - intros H. now inversion H.
Qed.

Lemma coord_in_In c l : coord_in c l = true <-> In c l.
Proof.
  unfold coord_in. rewrite existsb_exists. split.
  - intros (x & Hx & E). apply coord_eqb_eq in E. now subst.
  - intros H. exists c. split; [exact H | now apply coord_eqb_eq].
Qed.

Lemma dict_get_In {V} (d : list (string * V)) k v :
  dict_get d k = Some v -> In (k, v) d.
Proof.
  induction d as [|[k' v'] d IH]; simpl; [discriminate|].
  destruct (String.eqb k k') eqn:E.
  - apply String.eqb_eq in E. intros H. inversion H. subst. now left.
  - intros H. right. now apply IH.
Qed.

Lemma coords_of_In keys k c :
  In k keys -> dict_get FIELD_COORDINATES k = Some c -> In c (coords_of keys).
Proof.
  induction keys as [|k' keys IH]; cbn [coords_of In]; [tauto|].
  intros [-> | Hin] Hk.
  - rewrite Hk. now left.
  - destruct (dict_get FIELD_COORDINATES k'); [right|]; now apply IH.
Qed.

(** Keys listed once each with pairwise distinct coordinates: a coordinate
    names its key. *)
Lemma distinct_coords_key keys k1 k2 c :
  distinct_coords (coords_of keys) = true ->
  In k1 keys -> In k2 keys ->
  dict_get FIELD_COORDINATES k1 = Some c ->
  dict_get FIELD_COORDINATES k2 = Some c ->
  k1 = k2.
Proof.
  induction keys as [|k keys IH]; cbn [coords_of In]; [tauto|].
  intros Hd H1 H2 E1 E2.
  destruct (dict_get FIELD_COORDINATES k) as [c0|] eqn:Ek.
  - cbn [distinct_coords] in Hd. apply andb_true_iff in Hd. destruct Hd as [Hn Hd].
    apply negb_true_iff in Hn.
    assert (Hc : forall k', In k' keys ->
               dict_get FIELD_COORDINATES k' = Some c0 -> False).
    { intros k' Hin Hk'. pose proof (coords_of_In keys k' c0 Hin Hk') as Hi.
      apply coord_in_In in Hi. congruence. }
    destruct H1 as [<- | H1], H2 as [<- | H2].
    + reflexivity.
    + exfalso. apply (Hc k2 H2). congruence.
    + exfalso. apply (Hc k1 H1). congruence.
    + now apply IH.
  - destruct H1 as [<- | H1]; [congruence|].
    destruct H2 as [<- | H2]; [congruence|].
    now apply IH.
Qed.

(** No two fields of the coordinate table share a coordinate. *)
Lemma field_coordinates_injective k1 k2 c :
  dict_get FIELD_COORDINATES k1 = Some c ->
  dict_get FIELD_COORDINATES k2 = Some c ->
  k1 = k2.
Proof.
  intros E1 E2.
  apply (distinct_coords_key (map fst FIELD_COORDINATES) k1 k2 c);
    try assumption.
  - vm_compute. reflexivity.
  - apply dict_get_In in E1. now apply (in_map fst) in E1.
  - apply dict_get_In in E2. now apply (in_map fst) in E2.
Qed.

(** ** [get_nested_value] *)

Lemma get_nested_loop_total value keys :
  exists v, get_nested_loop value keys = Ok v.
Proof.
  revert value. induction keys as [|key keys IH]; intros value.
  - now exists value.
  - cbn [get_nested_loop].
    destruct value; cbn [isinstance_dict]; try (now exists VNone).
    cbn [py_contains py_getitem]. unfold dict_mem, subscript.
    destruct (dict_get d key) as [v|]; [apply IH | now exists VNone].
Qed.

(** A step on anything but a dict that has the key ends the descent. *)
Lemma get_nested_loop_stop cur key rest :
  isinstance_dict cur = false \/ py_contains key cur = Ok false ->
  get_nested_loop cur (key :: rest) = Ok VNone.
Proof.
  intros [H | H]; cbn [get_nested_loop].
  - now rewrite H.
  - destruct cur; try reflexivity. cbn [isinstance_dict]. now rewrite H.
Qed.

Lemma get_nested_loop_none keys : get_nested_loop VNone keys = Ok VNone.
Proof. destruct keys; reflexivity. Qed.

(** Descending a path in two legs. *)
Lemma get_nested_loop_app value prefix rest cur :
  get_nested_loop value prefix = Ok cur ->
  get_nested_loop value (prefix ++ rest) = get_nested_loop cur rest.
Proof.
  revert value. induction prefix as [|key prefix IH]; intros value.
  - cbn. intros H. now inversion H.
  - cbn [get_nested_loop app].
    destruct value; cbn [isinstance_dict];
      try (intros H; inversion H; now rewrite get_nested_loop_none).
    cbn [py_contains py_getitem]. unfold dict_mem, subscript.
    destruct (dict_get d key) as [v|].
    + apply IH.
    + intros H. inversion H. now rewrite get_nested_loop_none.
Qed.

(** ** The scalar pass *)

Lemma fill_text_field_appends data json_path coord_key :
  appends (fill_text_field data json_path coord_key)
          (text_field_marks data (json_path, coord_key)) (Ok tt).
Proof.
  intros p. unfold fill_text_field, text_field_marks, dict_mem, subscript.
  cbn [fst snd]. rewrite appends_eval_bind.
  destruct (get_nested_loop_total data (str_split "." json_path)) as (v & Hv).
  unfold get_nested_value. rewrite Hv.
  destruct (dict_get FIELD_COORDINATES coord_key) as [[x y]|].
  - destruct (py_truthy v); cbn [andb].
    + rewrite appends_eval_bind, insert_text_appends.
      now destruct (all_space (py_str v)).
    + unfold ret. now rewrite app_nil_r.
  - rewrite andb_false_r. unfold ret. now rewrite app_nil_r.
Qed.

Lemma fill_text_loop_appends data items :
  appends (fill_text_loop data items)
          (flat_map (text_field_marks data) items) (Ok tt).
Proof.
  induction items as [|[json_path coord_key] items IH]; cbn [fill_text_loop flat_map].
  - apply appends_ret.
  - eapply appends_bind_ok; [apply fill_text_field_appends | exact IH].
Qed.

Lemma fill_text_fields_appends data :
  appends (fill_text_fields data)
          (flat_map (text_field_marks data) TEXT_FIELD_MAPPINGS) (Ok tt).
Proof. apply fill_text_loop_appends. Qed.

(** The marks of an entry sit at the coordinate of its field. *)
Lemma text_field_marks_at data entry c :
  filter (at_point c) (text_field_marks data entry) =
  match dict_get FIELD_COORDINATES (snd entry) with
  | Some c' => if coord_eqb c' c then text_field_marks data entry else []
  | None => []
  end.
Proof.
  unfold text_field_marks.
  destruct (get_nested_value data (fst entry)) as [v|e];
    destruct (dict_get FIELD_COORDINATES (snd entry)) as [[x y]|];
    try reflexivity.
  - destruct (py_truthy v && negb (all_space (py_str v)))%bool.
    + cbn [filter]. unfold at_point, coord_eqb. cbn [fst snd ov_x ov_y].
      now destruct (x =? fst c); destruct (y =? snd c).
    + now destruct (coord_eqb (x, y) c).
  - now destruct (coord_eqb (x, y) c).
Qed.

Lemma coord_eqb_refl c : coord_eqb c c = true.
Proof. now apply coord_eqb_eq. Qed.

(** In a table whose fields have pairwise distinct coordinates, what is
    drawn at the coordinate of an entry is what that entry draws. *)
Lemma drawn_at_entry data items entry c :
  distinct_coords (coords_of (map snd items)) = true ->
  In entry items ->
  dict_get FIELD_COORDINATES (snd entry) = Some c ->
  drawn_at (flat_map (text_field_marks data) items) c =
  text_field_marks data entry.
Proof.
  unfold drawn_at.
  induction items as [|e0 items IH]; cbn [In map coords_of flat_map]; [tauto|].
  intros Hd Hin Hc. rewrite filter_app, text_field_marks_at.
  destruct (dict_get FIELD_COORDINATES (snd e0)) as [c0|] eqn:E0.
  - cbn [distinct_coords] in Hd. apply andb_true_iff in Hd.
    destruct Hd as [Hn Hd]. apply negb_true_iff in Hn.
    destruct Hin as [-> | Hin].
    + assert (c0 = c) by congruence. subst c0. rewrite coord_eqb_refl.
      assert (Hrest : forall l,
                coord_in c (coords_of (map snd l)) = false ->
                filter (at_point c) (flat_map (text_field_marks data) l) = []).
      { induction l as [|e l IHl]; cbn [map coords_of flat_map]; [reflexivity|].
        intros Hl. rewrite filter_app, text_field_marks_at.
        destruct (dict_get FIELD_COORDINATES (snd e)) as [c'|].
        - cbn [coord_in existsb] in Hl. apply orb_false_iff in Hl.
          destruct Hl as [Hl1 Hl2].
          replace (coord_eqb c' c) with false.
          + now apply IHl.
          + symmetry. destruct (coord_eqb c' c) eqn:E; [|reflexivity].
            apply coord_eqb_eq in E. subst. now rewrite coord_eqb_refl in Hl1.
        - now apply IHl. }
      rewrite (Hrest items Hn). apply app_nil_r.
    + assert (Hne : coord_eqb c0 c = false).
      { destruct (coord_eqb c0 c) eqn:E; [|reflexivity].
        apply coord_eqb_eq in E. subst c0.
        pose proof (coords_of_In (map snd items) (snd entry) c
                      (in_map snd _ _ Hin) Hc) as Hi.
        apply coord_in_In in Hi. congruence. }
      rewrite Hne. now apply IH.
  - destruct Hin as [-> | Hin]; [congruence|]. now apply IH.
Qed.

Lemma text_table_distinct :
  distinct_coords (coords_of (map snd TEXT_FIELD_MAPPINGS)) = true.
Proof. vm_compute. reflexivity. Qed.

(** Every field of the scalar table has a coordinate. *)
Lemma text_table_covered json_path coord_key :
  In (json_path, coord_key) TEXT_FIELD_MAPPINGS ->
  exists c, dict_get FIELD_COORDINATES coord_key = Some c.
Proof.
  intros Hin.
  assert (H : forallb (fun e => dict_mem FIELD_COORDINATES (snd e))
                TEXT_FIELD_MAPPINGS = true) by (vm_compute; reflexivity).
  rewrite forallb_forall in H. specialize (H _ Hin). cbn [snd] in H.
  unfold dict_mem in H.
  destruct (dict_get FIELD_COORDINATES coord_key) as [c|]; [now exists c | discriminate].
Qed.

(** What the scalar pass draws at the coordinate of one of its entries. *)
Lemma fill_text_fields_drawn data json_path coord_key c :
  In (json_path, coord_key) TEXT_FIELD_MAPPINGS ->
  dict_get FIELD_COORDINATES coord_key = Some c ->
  drawn_at (written (fill_text_fields data)) c =
  text_field_marks data (json_path, coord_key).
Proof.
  intros Hin Hc.
  rewrite (appends_written _ _ _ (fill_text_fields_appends data)).
  now apply drawn_at_entry; [apply text_table_distinct | |].
Qed.

(** C2 (amended). For every entry of [TEXT_FIELD_MAPPINGS] and every record,
    [fill_text_fields] raises nothing and draws at the entry's coordinate
    exactly this: nothing when the resolved value is false in a condition
    ([None] for an absent path, the empty string, [False], [0], an empty
    list or dict) or when its text is whitespace only; otherwise the text
    [str(value)] in the default font and size, also when the value is a
    non-empty list or dict. *)
Theorem fill_text_fields_entry data json_path coord_key :
  In (json_path, coord_key) TEXT_FIELD_MAPPINGS ->
  exists x y value,
    dict_get FIELD_COORDINATES coord_key = Some (x, y) /\
    get_nested_value data json_path = Ok value /\
    (forall p, outcome (fill_text_fields data) p = Ok tt) /\
    drawn_at (written (fill_text_fields data)) (x, y) =
      if (py_truthy value && negb (all_space (py_str value)))%bool
      then [Overlay x y (py_str value) FONT_NAME FONT_SIZE]
      else [].
Proof.
  intros Hin.
  destruct (text_table_covered _ _ Hin) as ([x y] & Hc).
  destruct (get_nested_loop_total data (str_split "." json_path)) as (v & Hv).
  exists x, y, v. repeat split; try assumption.
  - intros p. apply (appends_outcome _ _ _ _ (fill_text_fields_appends data)).
  - rewrite (fill_text_fields_drawn data json_path coord_key (x, y) Hin Hc).
    unfold text_field_marks. cbn [fst snd].
    unfold get_nested_value. now rewrite Hv, Hc.
Qed.

(** C10. A resolved value whose text is whitespace only is skipped like an
    absent one: [insert_text] leaves the page as it is, and nothing is drawn
    at the coordinate of the field. *)
Theorem whitespace_text_is_skipped data json_path coord_key value x y :
  In (json_path, coord_key) TEXT_FIELD_MAPPINGS ->
  dict_get FIELD_COORDINATES coord_key = Some (x, y) ->
  get_nested_value data json_path = Ok value ->
  all_space (py_str value) = true ->
  (forall p, insert_text x y (py_str value) FONT_SIZE p = (p, Ok tt)) /\
  drawn_at (written (fill_text_fields data)) (x, y) = [].
Proof.
  intros Hin Hc Hv Hs. split.
  - intros p. rewrite insert_text_appends, Hs. now rewrite app_nil_r.
  - rewrite (fill_text_fields_drawn data json_path coord_key (x, y) Hin Hc).
    unfold text_field_marks. cbn [fst snd]. rewrite Hv, Hc, Hs.
    now rewrite andb_false_r.
Qed.

(** C6. [get_nested_value] never raises, on any value and any path; when
    the descent reaches, after some segments, a value that is not a dict or
    a dict without the next key, the result is [None] whatever segments
    follow; so [a.b.c] on a record whose [a.b] is a string is [None]. *)
Theorem get_nested_value_descends data path :
  (exists v, get_nested_value data path = Ok v) /\
  (forall prefix key rest cur,
     str_split "." path = (prefix ++ key :: rest)%list ->
     get_nested_loop data prefix = Ok cur ->
     isinstance_dict cur = false \/ py_contains key cur = Ok false ->
     get_nested_value data path = Ok VNone) /\
  (forall s extra,
     get_nested_value (VDict (("a", VDict [("b", VStr s)]) :: extra)) "a.b.c"
       = Ok VNone).
Proof.
  split; [apply get_nested_loop_total|]. split.
  - intros prefix key rest cur Hsplit Hpre Hstop.
    unfold get_nested_value. rewrite Hsplit.
    rewrite (get_nested_loop_app data prefix (key :: rest) cur Hpre).
    now apply get_nested_loop_stop.
  - reflexivity.
Qed.

Lemma get_nested_value_descends_witness :
  get_nested_value (VDict [("a", VDict [("b", VStr "x")])]) "a.b.c" = Ok VNone.
Proof.
  apply (proj1 (proj2 (get_nested_value_descends
                         (VDict [("a", VDict [("b", VStr "x")])]) "a.b.c"))
           ["a"; "b"] "c" [] (VStr "x")).
  - reflexivity.
  - reflexivity.
  - left. reflexivity.
Defined.

(** ** [extract_full_name] *)

Lemma upper_char_N c : upper_char c = "N"%char <-> c = "N"%char \/ c = "n"%char.
Proof.
  split.
  - destruct c as [[] [] [] [] [] [] [] []]; vm_compute; intros H;
      try discriminate H; auto.
  - intros [-> | ->]; reflexivity.
Qed.

Lemma upper_char_A c : upper_char c = "A"%char <-> c = "A"%char \/ c = "a"%char.
Proof.
  split.
  - destruct c as [[] [] [] [] [] [] [] []]; vm_compute; intros H;
      try discriminate H; auto.
  - intros [-> | ->]; reflexivity.
Qed.

Lemma upper_char_slash c : upper_char c = "/"%char <-> c = "/"%char.
Proof.
  split.
  - destruct c as [[] [] [] [] [] [] [] []]; vm_compute; intros H;
      try discriminate H; auto.
  - intros ->; reflexivity.
Qed.

(** The texts [upper] sends to N/A are its four spellings. *)
Lemma str_upper_na s :
  str_upper s = "N/A" <->
  s = "N/A" \/ s = "N/a" \/ s = "n/A" \/ s = "n/a".
Proof.
  split.
  - unfold str_upper. intros H.
    destruct s as [|c1 s]; [discriminate|]. cbn [map_string] in H.
    injection H as H1 H.
    destruct s as [|c2 s]; [discriminate|]. cbn [map_string] in H.
    injection H as H2 H.
    destruct s as [|c3 s]; [discriminate|]. cbn [map_string] in H.
    injection H as H3 H.
    destruct s as [|c4 s]; [|discriminate].
    apply (proj1 (upper_char_N c1)) in H1.
    apply (proj1 (upper_char_slash c2)) in H2.
    apply (proj1 (upper_char_A c3)) in H3. subst c2.
    destruct H1 as [-> | ->], H3 as [-> | ->]; auto.
  - intros [-> | [-> | [-> | ->]]]; reflexivity.
Qed.

Lemma py_strings_strs l : py_strings (map VStr l) = Ok l.
Proof.
  induction l as [|s l IH]; cbn [map py_strings]; [reflexivity|].
  now rewrite IH.
Qed.

Lemma name_parts_loop_present parts acc :
  forallb name_value_ok parts = true ->
  name_parts_loop parts (map VStr acc) =
  Ok (map VStr (acc ++ present_names parts)%list).
Proof.
  revert acc. induction parts as [|part parts IH]; intros acc.
  - intros _. cbn. now rewrite app_nil_r.
  - cbn [forallb]. intros H. apply andb_true_iff in H. destruct H as [Hp Hr].
    cbn [name_parts_loop present_names].
    destruct part as [| b | n | s | l | d]; cbn [name_value_ok] in Hp;
      try (apply negb_true_iff in Hp; rewrite Hp; cbn [name_text];
           now apply IH).
    cbn [py_truthy py_upper name_text].
    destruct (String.eqb s "") eqn:Es; cbn [negb orb]; [now apply IH|].
    destruct (String.eqb (str_upper s) "N/A"); cbn [negb]; [now apply IH|].
    change (map VStr acc ++ [VStr s])%list with (map VStr acc ++ map VStr [s])%list.
    rewrite <- map_app, (IH (acc ++ [s])%list Hr).
    now rewrite <- app_assoc.
Qed.

(** A name value that is true in a condition and not a string has no
    [upper]. *)
Lemma name_parts_loop_raises part rest acc :
  name_value_ok part = false ->
  name_parts_loop (part :: rest) acc = Raise (AttributeError "upper").
Proof.
  destruct part; cbn [name_value_ok]; try discriminate;
    intros H; apply negb_false_iff in H; cbn [name_parts_loop];
    now rewrite H.
Qed.

(** C5 (amended). For every record whose identity section is a mapping or
    missing, and whose first, middle and last name are each missing, a
    string, or a value that is false in a condition, [extract_full_name]
    returns the name parts joined by one space in the order first, middle,
    last, leaving out every part that is missing, false in a condition, the
    empty string, or N/A in any of its four spellings; with no part left the
    result is the empty string. *)
Theorem extract_full_name_joins data personal first middle last :
  py_get data "personal_info" (VDict []) = Ok personal ->
  py_get personal "first_name" (VStr "") = Ok first ->
  py_get personal "middle_name" (VStr "") = Ok middle ->
  py_get personal "last_name" (VStr "") = Ok last ->
  forallb name_value_ok [first; middle; last] = true ->
  extract_full_name data =
    Ok (str_join " " (present_names [first; middle; last])) /\
  (present_names [first; middle; last] = [] -> extract_full_name data = Ok "") /\
  (forall s, name_text (VStr s) = None <->
             s = "" \/ s = "N/A" \/ s = "N/a" \/ s = "n/A" \/ s = "n/a").
Proof.
  intros Hp Hf Hm Hl Hok.
  assert (E : extract_full_name data =
              Ok (str_join " " (present_names [first; middle; last]))).
  { unfold extract_full_name. rewrite Hp, Hf, Hm, Hl.
    pose proof (name_parts_loop_present [first; middle; last] [] Hok) as Hn.
    cbn [map app] in Hn. change (@map string pyval VStr []) with (@nil pyval) in Hn.
    rewrite Hn. unfold py_join. now rewrite py_strings_strs. }
  split; [exact E|]. split.
  - intros Hn. now rewrite E, Hn.
  - intros s. cbn [name_text]. split.
    + destruct (String.eqb s "") eqn:Es.
      * apply String.eqb_eq in Es. now left.
      * destruct (String.eqb (str_upper s) "N/A") eqn:Eu; [|discriminate].
        apply String.eqb_eq in Eu. apply str_upper_na in Eu. now right.
    + intros [-> | H]; [reflexivity|].
      apply str_upper_na in H. apply String.eqb_eq in H. rewrite H.
      now rewrite orb_true_r.
Qed.

Lemma extract_full_name_joins_witness :
  extract_full_name (record_names (VStr "N/A") VNone (VStr "Reyes")) = Ok "Reyes".
Proof.
  apply (proj1 (extract_full_name_joins
                  (record_names (VStr "N/A") VNone (VStr "Reyes"))
                  (VDict [("first_name", VStr "N/A"); ("middle_name", VNone);
                          ("last_name", VStr "Reyes")])
                  (VStr "N/A") VNone (VStr "Reyes")
                  eq_refl eq_refl eq_refl eq_refl eq_refl)).
Defined.

(** The examples of the specification. *)
Example extract_full_name_three_parts :
  extract_full_name (record_names (VStr "Maria") (VStr "Cruz") (VStr "Santos"))
    = Ok "Maria Cruz Santos".
Proof. reflexivity. Qed.

Example extract_full_name_middle_na :
  extract_full_name (record_names (VStr "Maria") (VStr "n/a") (VStr "Santos"))
    = Ok "Maria Santos".
Proof. reflexivity. Qed.

Example extract_full_name_middle_absent :
  extract_full_name
    (VDict [("personal_info",
             VDict [("first_name", VStr "Maria"); ("last_name", VStr "Santos")])])
    = Ok "Maria Santos".
Proof. reflexivity. Qed.

Example extract_full_name_no_section : extract_full_name (VDict []) = Ok "".
Proof. reflexivity. Qed.

(** C5, as stated, fails: on a record whose middle name is a number the
    function returns no name, it raises. *)
Lemma extract_full_name_numeric_middle_name :
  extract_full_name record_numeric_middle_name = Raise (AttributeError "upper") /\
  forall name, extract_full_name record_numeric_middle_name <> Ok name.
Proof. split; [reflexivity | intros name; discriminate]. Qed.

(** ** The grouped checkbox steps *)

(** A step [v = section.get(key, "").lower(); ...] on a string value. *)
Lemma cb_group_step section key group (norm : string -> string) s :
  py_get section key (VStr "") = Ok (VStr s) ->
  appends (bind (get_lower section key)
                (fun lowered => mark_mapped group (norm lowered)))
          (group_marks group (norm (str_lower s)))
          (match dict_get CHECKBOX_MAPPINGS group with
           | Some _ => Ok tt
           | None => Raise (KeyError group)
           end).
Proof.
  intros H. pose proof (get_lower_appends section key) as Hg.
  rewrite H in Hg. cbn [py_lower] in Hg.
  change (group_marks group (norm (str_lower s)))
    with ([] ++ group_marks group (norm (str_lower s)))%list.
  eapply appends_bind_ok; [exact Hg|]. apply mark_mapped_appends.
Qed.

Lemma cb_foreign_citizenship_yes citizenship foreign_cit flag s :
  py_get citizenship "foreign_citizenship" (VDict []) = Ok foreign_cit ->
  py_get foreign_cit "acquired" VNone = Ok flag ->
  py_truthy flag = true ->
  py_get foreign_cit "mode" (VStr "") = Ok (VStr s) ->
  appends (cb_foreign_citizenship citizenship)
          (field_marks "checkbox_foreign_citizenship_yes" ++
           group_marks "foreign_citizenship_mode" (str_lower s))%list (Ok tt).
Proof.
  intros Hc Ha Ht Hm p. unfold cb_foreign_citizenship.
  rewrite appends_eval_bind, Hc, appends_eval_bind, Ha, Ht.
  revert p. eapply appends_bind_ok; [apply mark_field_appends|].
  apply (cb_group_step foreign_cit "mode" "foreign_citizenship_mode"
           (fun x => x) s Hm).
Qed.

(** The yes/no steps, each taken alone. *)
Lemma cb_foreign_citizenship_no citizenship foreign_cit flag :
  py_get citizenship "foreign_citizenship" (VDict []) = Ok foreign_cit ->
  py_get foreign_cit "acquired" VNone = Ok flag ->
  py_truthy flag = false ->
  appends (cb_foreign_citizenship citizenship)
          (field_marks "checkbox_foreign_citizenship_no") (Ok tt).
Proof.
  intros Hc Ha Ht p. unfold cb_foreign_citizenship.
  rewrite appends_eval_bind, Hc, appends_eval_bind, Ha, Ht.
  apply mark_field_appends.
Qed.

Lemma cb_yes_no_appends citizenship sub flag yes_key no_key section v :
  py_get citizenship sub (VDict []) = Ok section ->
  py_get section flag VNone = Ok v ->
  appends (cb_yes_no citizenship sub flag yes_key no_key)
          (field_marks (if py_truthy v then yes_key else no_key)) (Ok tt).
Proof.
  intros Hs Hv p. unfold cb_yes_no.
  rewrite appends_eval_bind, Hs, appends_eval_bind, Hv.
  destruct (py_truthy v); apply mark_field_appends.
Qed.

Lemma cb_renounced_appends citizenship v :
  py_get citizenship "renounced_philippine_citizenship" VNone = Ok v ->
  appends (cb_renounced citizenship)
          (field_marks (if py_truthy v then "checkbox_renounced_yes"
                        else "checkbox_renounced_no")) (Ok tt).
Proof.
  intros Hv p. unfold cb_renounced. rewrite appends_eval_bind, Hv.
  destruct (py_truthy v); apply mark_field_appends.
Qed.

(** A sub-section bound to anything but a mapping stops the step. *)
Lemma cb_yes_no_not_a_mapping citizenship sub flag yes_key no_key section :
  py_get citizenship sub (VDict []) = Ok section ->
  isinstance_dict section = false ->
  appends (cb_yes_no citizenship sub flag yes_key no_key) []
          (Raise (AttributeError "get")).
Proof.
  intros Hs Hd p. unfold cb_yes_no. rewrite appends_eval_bind, Hs.
  destruct section; try discriminate Hd; cbn [py_get]; rewrite appends_eval_bind;
    now rewrite app_nil_r.
Qed.

(** Each grouped step, taken alone, matches the record's string value
    against its group of [CHECKBOX_MAPPINGS] after lowercasing it, and the
    civil-status step after lowercasing it and replacing every space by an
    underscore; no step trims. Applicant category, sex, acquired-by and
    (under a true [acquired] flag) the foreign-citizenship mode are matched
    on the lowercased value alone. So the civil status Legally Separated
    marks the field of [legally_separated], at (342, 303), and no other. *)
Theorem grouped_steps_normalization (section : pyval) (s : string) :
  (py_get section "applicant_category" (VStr "") = Ok (VStr s) ->
   appends (cb_applicant_category section)
           (group_marks "applicant_category" (str_lower s)) (Ok tt)) /\
  (py_get section "sex" (VStr "") = Ok (VStr s) ->
   appends (cb_sex section) (group_marks "sex" (str_lower s)) (Ok tt)) /\
  (py_get section "civil_status" (VStr "") = Ok (VStr s) ->
   appends (cb_civil_status section)
           (group_marks "civil_status" (str_replace " " "_" (str_lower s)))
           (Ok tt)) /\
  (py_get section "acquired_by" (VStr "") = Ok (VStr s) ->
   appends (cb_acquired_by section)
           (group_marks "acquired_by" (str_lower s)) (Ok tt)) /\
  (forall foreign_cit flag,
     py_get section "foreign_citizenship" (VDict []) = Ok foreign_cit ->
     py_get foreign_cit "acquired" VNone = Ok flag ->
     py_truthy flag = true ->
     py_get foreign_cit "mode" (VStr "") = Ok (VStr s) ->
     appends (cb_foreign_citizenship section)
             (field_marks "checkbox_foreign_citizenship_yes" ++
              group_marks "foreign_citizenship_mode" (str_lower s))%list
             (Ok tt)) /\
  (s = "Legally Separated" ->
   py_get section "civil_status" (VStr "") = Ok (VStr s) ->
   appends (cb_civil_status section)
           [Overlay 342 303 CHECKBOX_CHAR FONT_NAME CHECKBOX_FONT_SIZE] (Ok tt) /\
   field_marks "checkbox_legally_separated"
     = [Overlay 342 303 CHECKBOX_CHAR FONT_NAME CHECKBOX_FONT_SIZE]).
Proof.
  repeat split.
  - intros H. apply (cb_group_step section "applicant_category"
                       "applicant_category" (fun x => x) s H).
  - intros H. apply (cb_group_step section "sex" "sex" (fun x => x) s H).
  - intros H. apply (cb_group_step section "civil_status" "civil_status"
                       (str_replace " " "_") s H).
  - intros H. apply (cb_group_step section "acquired_by" "acquired_by"
                       (fun x => x) s H).
  - intros foreign_cit flag. apply cb_foreign_citizenship_yes.
  - subst s. apply (cb_group_step section "civil_status" "civil_status"
                      (str_replace " " "_") "Legally Separated" H0).
Qed.

Lemma grouped_steps_normalization_witness :
  py_get (VDict [("civil_status", VStr "Legally Separated")])
         "civil_status" (VStr "") = Ok (VStr "Legally Separated") /\
  appends (cb_civil_status (VDict [("civil_status", VStr "Legally Separated")]))
          [Overlay 342 303 CHECKBOX_CHAR FONT_NAME CHECKBOX_FONT_SIZE] (Ok tt).
Proof.
  split; [reflexivity|].
  apply (proj2 (proj2 (proj2 (proj2 (proj2
           (grouped_steps_normalization
              (VDict [("civil_status", VStr "Legally Separated")])
              "Legally Separated"))))) eq_refl eq_refl).
Defined.

(** ** The checkbox pass as a whole *)

(** C4. On every record [fill_checkboxes] raises before it reaches a yes/no
    step: what it has drawn by then holds no mark at the coordinate of any
    yes/no field. On a record whose [served] flag is true the page stays
    blank and the call ends in the [KeyError] of the processing-type
    step. *)
Theorem fill_checkboxes_marks_no_yes_no_field (data : pyval) (p : page) :
  (exists marks e,
     fill_checkboxes data p = ((p ++ marks)%list, Raise e) /\
     forallb (fun o => negb (coord_in (ov_x o, ov_y o) (coords_of yes_no_fields)))
             marks = true) /\
  fill_checkboxes record_served [] = ([], Raise (KeyError "processing_type")) /\
  dict_get CHECKBOX_MAPPINGS "processing_type" = None.
Proof.
  split; [|split; reflexivity].
  destruct (fill_checkboxes_appends data) as (marks & e & H & Hm).
  exists marks, e. split; [apply H|].
  now apply reachable_marks_not_yes_no.
Qed.

(** C1. [generate_filled_pdf_bytes] returns on no input: whatever the
    record, the template store and the path, the call ends in a raise. With
    the template at hand and a record of the expected shape the raise is
    the [KeyError] of the processing-type step. *)
Theorem generate_filled_pdf_bytes_always_raises
    (fs : store) (data : pyval) (template_path : string) (s : session) :
  (exists e, snd (generate_filled_pdf_bytes fs data template_path s) = Raise e) /\
  snd (generate_filled_pdf_bytes one_page_store record_minimal "form.pdf" no_session)
    = Raise (KeyError "processing_type").
Proof.
  split; [|reflexivity].
  destruct (fs template_path) as [doc|] eqn:E.
  - destruct (generate_after_open fs data template_path doc s E)
      as (e & s' & H & _).
    exists e. now rewrite H.
  - exists (FileNotFoundError template_path).
    unfold generate_filled_pdf_bytes, bind, fitz_open. now rewrite E.
Qed.

(** C9. Whenever the template opens, [generate_filled_pdf_bytes] ends with
    the handle still held: the raise of the checkbox pass (or of [doc[0]]
    on a template without pages) leaves the call before [doc.close()]. *)
Theorem generate_filled_pdf_bytes_leaves_handle_open
    (fs : store) (data : pyval) (template_path : string)
    (doc : list page) (s : session) :
  fs template_path = Some doc ->
  s_handle (fst (generate_filled_pdf_bytes fs data template_path s)) = Opened /\
  is_ok (snd (generate_filled_pdf_bytes fs data template_path s)) = false.
Proof.
  intros E.
  destruct (generate_after_open fs data template_path doc s E)
    as (e & s' & H & Hh).
  now rewrite H.
Qed.

(** ** Order of the passes *)

Lemma draws_within_appends {A} pts (m : M A) marks r :
  appends m marks r ->
  Forall (fun o => coord_in (ov_x o, ov_y o) pts = true) marks ->
  draws_within pts m.
Proof. intros H F. now exists marks, r. Qed.

Lemma draws_within_eval {A} pts (r : result A) : draws_within pts (eval r).
Proof. apply (draws_within_appends pts _ [] r); [apply appends_eval | constructor]. Qed.

Lemma draws_within_ret {A} pts (a : A) : draws_within pts (ret a).
Proof. apply (draws_within_eval pts (Ok a)). Qed.

Lemma draws_within_bind {A B} pts (m : M A) (k : A -> M B) :
  draws_within pts m -> (forall a, draws_within pts (k a)) ->
  draws_within pts (bind m k).
Proof.
  intros (ms & r & Hm & Fm) Hk. destruct r as [a|e].
  - destruct (Hk a) as (ks & r & Hka & Fk).
    exists (ms ++ ks)%list, r. split.
    + now apply (appends_bind_ok m k ms a ks r).
    + apply Forall_app. now split.
  - exists ms, (Raise e). split; [now apply appends_bind_raise | exact Fm].
Qed.

Lemma field_marks_within keys key :
  In key keys ->
  Forall (fun o => coord_in (ov_x o, ov_y o) (coords_of keys) = true)
         (field_marks key).
Proof.
  intros Hin. unfold field_marks.
  destruct (dict_get FIELD_COORDINATES key) as [[x y]|] eqn:E; constructor.
  - cbn [ov_x ov_y]. apply coord_in_In. now apply (coords_of_In keys key).
  - constructor.
Qed.

Lemma mark_field_within keys key :
  In key keys -> draws_within (coords_of keys) (mark_field key).
Proof.
  intros Hin. eapply draws_within_appends; [apply mark_field_appends|].
  now apply field_marks_within.
Qed.

(** Whatever the group and the value, a table lookup marks a checkbox
    field. *)
Lemma mark_mapped_within group value :
  draws_within checkbox_coords (mark_mapped group value).
Proof.
  eapply draws_within_appends; [apply mark_mapped_appends|].
  unfold group_marks.
  destruct (dict_get CHECKBOX_MAPPINGS group) as [table|] eqn:Eg; [|constructor].
  destruct (dict_get table value) as [key|] eqn:Ek; [|constructor].
  apply field_marks_within. unfold checkbox_fields.
  apply in_or_app. left. apply in_flat_map.
  exists (group, table). split; [now apply dict_get_In|].
  cbn [snd]. apply dict_get_In in Ek. now apply (in_map snd) in Ek.
Qed.

Lemma get_lower_within pts section key : draws_within pts (get_lower section key).
Proof.
  unfold get_lower. apply draws_within_bind; [apply draws_within_eval|].
  intros v. apply draws_within_eval.
Qed.

Lemma yes_no_field_within key :
  In key yes_no_fields -> draws_within checkbox_coords (mark_field key).
Proof.
  intros Hin. apply mark_field_within. unfold checkbox_fields.
  apply in_or_app. now right.
Qed.

Ltac in_list := cbn [In yes_no_fields]; repeat (try (left; reflexivity); right).

Ltac within_step :=
  repeat first
    [ apply get_lower_within
    | apply mark_mapped_within
    | apply yes_no_field_within; in_list
    | apply draws_within_eval
    | match goal with
      | |- draws_within _ (if ?b then _ else _) => destruct b
      end
    | apply draws_within_bind; [|intros ?] ].

(** Every step of the checkbox pass draws at checkbox coordinates only. *)
Lemma checkbox_steps_within :
  Forall (fun step => forall section, draws_within checkbox_coords (step section))
         checkbox_steps.
Proof.
  unfold checkbox_steps.
  repeat constructor; intros section;
    unfold cb_applicant_category, cb_processing_type, cb_sex, cb_civil_status,
      cb_acquired_by, cb_foreign_citizenship, cb_foreign_military, cb_renounced,
      cb_foreign_passport, cb_ph_passport, cb_yes_no;
    within_step.
Qed.

Lemma fill_checkboxes_within data :
  draws_within checkbox_coords (fill_checkboxes data).
Proof.
  unfold fill_checkboxes, cb_applicant_category, cb_processing_type, cb_sex,
    cb_civil_status, cb_acquired_by, cb_foreign_citizenship,
    cb_foreign_military, cb_renounced, cb_foreign_passport, cb_ph_passport,
    cb_yes_no.
  within_step.
Qed.

Lemma text_field_marks_within data json_path coord_key :
  Forall (fun o => coord_in (ov_x o, ov_y o) (coords_of [coord_key]) = true)
         (text_field_marks data (json_path, coord_key)).
Proof.
  unfold text_field_marks. cbn [fst snd coords_of].
  destruct (get_nested_value data json_path) as [v|e];
    destruct (dict_get FIELD_COORDINATES coord_key) as [[x y]|]; try constructor.
  destruct (py_truthy v && negb (all_space (py_str v)))%bool; constructor.
  - cbn [ov_x ov_y]. apply coord_in_In. now left.
  - constructor.
Qed.

Lemma fill_text_field_within data json_path coord_key :
  draws_within (coords_of [coord_key]) (fill_text_field data json_path coord_key).
Proof.
  eapply draws_within_appends; [apply fill_text_field_appends|].
  apply text_field_marks_within.
Qed.

Lemma draws_within_weaken {A} pts pts' (m : M A) :
  (forall c, In c pts -> In c pts') -> draws_within pts m -> draws_within pts' m.
Proof.
  intros Hsub (marks & r & Hm & F). exists marks, r. split; [exact Hm|].
  eapply Forall_impl; [|exact F]. cbn. intros o Ho.
  apply coord_in_In. apply Hsub. now apply coord_in_In.
Qed.

Lemma fill_text_loop_within data items :
  draws_within (coords_of (map snd items)) (fill_text_loop data items).
Proof.
  induction items as [|[json_path coord_key] items IH]; cbn [fill_text_loop].
  - apply draws_within_ret.
  - apply draws_within_bind.
    + apply (draws_within_weaken (coords_of [coord_key])); [|apply fill_text_field_within].
      intros c. cbn [map snd coords_of].
      destruct (dict_get FIELD_COORDINATES coord_key); cbn [In]; tauto.
    + intros _. apply (draws_within_weaken (coords_of (map snd items))); [|exact IH].
      intros c. cbn [map snd coords_of].
      destruct (dict_get FIELD_COORDINATES coord_key); cbn [In]; tauto.
Qed.

Lemma fill_text_fields_within data :
  draws_within text_coords (fill_text_fields data).
Proof. apply fill_text_loop_within. Qed.

Lemma filter_outside pts marks pt :
  Forall (fun o => coord_in (ov_x o, ov_y o) pts = true) marks ->
  coord_in pt pts = false ->
  filter (at_point pt) marks = [].
Proof.
  intros F Hpt. induction F as [|o marks Ho F IH]; cbn [filter]; [reflexivity|].
  destruct (at_point pt o) eqn:E; [|exact IH].
  exfalso. unfold at_point in E. apply andb_true_iff in E.
  rewrite !Z.eqb_eq in E. destruct E as [E1 E2].
  destruct pt as [x y]. cbn [fst snd] in E1, E2. subst. congruence.
Qed.

(** Two computations that draw on disjoint sets of points can run in
    either order. *)
Lemma disjoint_commute {A B} pts1 pts2 (m1 : M A) (m2 : M B) p :
  draws_within pts1 m1 -> draws_within pts2 m2 ->
  (forall c, coord_in c pts1 = true -> coord_in c pts2 = false) ->
  same_document (exec m2 (exec m1 p)) (exec m1 (exec m2 p)).
Proof.
  intros (a & ra & Ha & Fa) (b & rb & Hb & Fb) Hdis pt.
  rewrite (appends_exec m1 a ra p Ha), (appends_exec m2 b rb _ Hb).
  rewrite (appends_exec m2 b rb p Hb), (appends_exec m1 a ra _ Ha).
  unfold drawn_at. rewrite !filter_app.
  destruct (coord_in pt pts1) eqn:E.
  - rewrite (filter_outside pts2 b pt Fb (Hdis pt E)). now rewrite !app_nil_r.
  - rewrite (filter_outside pts1 a pt Fa E). now rewrite !app_nil_r.
Qed.

Lemma checkbox_text_disjoint c :
  coord_in c checkbox_coords = true -> coord_in c text_coords = false.
Proof.
  intros H. apply coord_in_In in H.
  assert (D : forallb (fun c => negb (coord_in c text_coords)) checkbox_coords
              = true) by (vm_compute; reflexivity).
  rewrite forallb_forall in D. apply D in H. now apply negb_true_iff in H.
Qed.

Lemma distinct_fields_disjoint key1 key2 c :
  key1 <> key2 ->
  coord_in c (coords_of [key1]) = true -> coord_in c (coords_of [key2]) = false.
Proof.
  intros Hne H1. apply coord_in_In in H1. cbn [coords_of] in *.
  destruct (dict_get FIELD_COORDINATES key1) as [c1|] eqn:E1; [|now elim H1].
  destruct H1 as [-> | []].
  destruct (dict_get FIELD_COORDINATES key2) as [c2|] eqn:E2; [|reflexivity].
  cbn [coord_in existsb]. rewrite orb_false_r.
  destruct (coord_eqb c c2) eqn:E; [|reflexivity].
  apply coord_eqb_eq in E. subst c2.
  elim Hne. now apply (field_coordinates_injective key1 key2 c).
Qed.

(** The coordinates of the checkbox fields and those of the scalar fields
    are disjoint, the checkbox pass and each of its steps draw at the former
    only and the scalar pass at the latter only. So what the two passes
    draw, each taken as the change it makes to a page up to the point where
    it stops, gives the same document whichever is applied first; this is
    not the sequence of two calls, in which a raise of the first keeps the
    second from running. Likewise two schema entries for different fields,
    checkbox marks or scalar texts, draw the same document in either
    order. *)
Theorem passes_order_independent (data : pyval) (p : page) :
  (forall c, In c checkbox_coords -> ~ In c text_coords) /\
  draws_within checkbox_coords (fill_checkboxes data) /\
  draws_within text_coords (fill_text_fields data) /\
  same_document (exec (fill_text_fields data) (exec (fill_checkboxes data) p))
                (exec (fill_checkboxes data) (exec (fill_text_fields data) p)) /\
  Forall (fun step => forall section,
            draws_within checkbox_coords (step section) /\
            same_document
              (exec (fill_text_fields data) (exec (step section) p))
              (exec (step section) (exec (fill_text_fields data) p)))
         checkbox_steps /\
  (forall key json_path,
     draws_within (coords_of [key]) (mark_field key) /\
     draws_within (coords_of [key]) (fill_text_field data json_path key)) /\
  (forall key1 key2 (m1 m2 : M unit),
     key1 <> key2 ->
     draws_within (coords_of [key1]) m1 ->
     draws_within (coords_of [key2]) m2 ->
     same_document (exec m2 (exec m1 p)) (exec m1 (exec m2 p))).
Proof.
  split; [|split; [|split; [|split; [|split; [|split]]]]].
  - intros c Hc Ht. apply coord_in_In in Hc. apply coord_in_In in Ht.
    rewrite (checkbox_text_disjoint c Hc) in Ht. discriminate.
  - apply fill_checkboxes_within.
  - apply fill_text_fields_within.
  - apply (disjoint_commute checkbox_coords text_coords).
    + apply fill_checkboxes_within.
    + apply fill_text_fields_within.
    + apply checkbox_text_disjoint.
  - eapply Forall_impl; [|apply checkbox_steps_within].
    cbn. intros step Hstep section. split; [apply Hstep|].
    apply (disjoint_commute checkbox_coords text_coords).
    + apply Hstep.
    + apply fill_text_fields_within.
    + apply checkbox_text_disjoint.
  - intros key json_path. split.
    + apply mark_field_within. now left.
    + apply fill_text_field_within.
  - intros key1 key2 m1 m2 Hne H1 H2.
    apply (disjoint_commute (coords_of [key1]) (coords_of [key2])); try assumption.
    intros c. now apply distinct_fields_disjoint.
Qed.

(** ** The grouped values the pass reaches *)

(** C3 (amended). On every record whose application type is a mapping, or
    missing, and whose applicant category is a string, or missing,
    [fill_checkboxes] matches the category against its group of
    [CHECKBOX_MAPPINGS] after lowercasing it and nothing else: no trimming,
    no underscore for a space. What the pass has drawn when it stops is the
    mark of [adult] when the lowercased value is exactly [adult], the mark
    of [minor] when it is exactly [minor], and nothing for any other
    value. *)
Theorem applicant_category_matched_on_lowercase (data app_type : pyval)
    (s : string) (p : page) :
  py_get data "application_type" (VDict []) = Ok app_type ->
  py_get app_type "applicant_category" (VStr "") = Ok (VStr s) ->
  exec (fill_checkboxes data) p
    = (p ++ group_marks "applicant_category" (str_lower s))%list /\
  group_marks "applicant_category" (str_lower s)
    = (if String.eqb (str_lower s) "adult" then [checkbox_at (33, 152)]
       else if String.eqb (str_lower s) "minor" then [checkbox_at (82, 152)]
       else []).
Proof.
  intros Ha Hc. split.
  - pose proof (cb_group_step app_type "applicant_category" "applicant_category"
                  (fun x => x) s Hc) as H1.
    change (dict_get CHECKBOX_MAPPINGS "applicant_category")
      with (Some [("adult", "checkbox_adult"); ("minor", "checkbox_minor")]) in H1.
    cbv beta iota in H1.
    destruct (cb_processing_type_raises app_type) as (e & H2).
    unfold exec, fill_checkboxes. rewrite appends_eval_bind, Ha.
    replace (group_marks "applicant_category" (str_lower s))
      with (group_marks "applicant_category" (str_lower s) ++ [])%list
      by apply app_nil_r.
    rewrite (appends_bind_ok _ _ _ _ _ _ H1
               (appends_bind_raise _ _ _ _ H2) p).
    reflexivity.
  - unfold group_marks.
    cbn [dict_get CHECKBOX_MAPPINGS String.eqb Ascii.eqb Bool.eqb].
    destruct (String.eqb (str_lower s) "adult"); [reflexivity|].
    destruct (String.eqb (str_lower s) "minor"); reflexivity.
Qed.

Lemma applicant_category_matched_on_lowercase_witness :
  exec (fill_checkboxes
          (VDict [("application_type", VDict [("applicant_category", VStr "ADULT")])]))
       []
    = ([] ++ group_marks "applicant_category" (str_lower "ADULT"))%list /\
  group_marks "applicant_category" (str_lower "ADULT")
    = (if String.eqb (str_lower "ADULT") "adult" then [checkbox_at (33, 152)]
       else if String.eqb (str_lower "ADULT") "minor" then [checkbox_at (82, 152)]
       else []).
Proof.
  apply (applicant_category_matched_on_lowercase
           (VDict [("application_type", VDict [("applicant_category", VStr "ADULT")])])
           (VDict [("applicant_category", VStr "ADULT")]) "ADULT" []).
  - reflexivity.
  - reflexivity.
Defined.

(** C3, as stated, fails: the value is not trimmed. An applicant category
    with a leading space has the normal form [adult], which the table maps
    to the adult field, and the pass draws no mark for it. *)
Lemma applicant_category_not_trimmed :
  spec_normalize " Adult" = "adult" /\
  group_marks "applicant_category" (spec_normalize " Adult")
    = [checkbox_at (33, 152)] /\
  fill_checkboxes record_spaced_category []
    = ([], Raise (KeyError "processing_type")) /\
  exec (fill_checkboxes record_spaced_category) []
    <> group_marks "applicant_category" (spec_normalize " Adult").
Proof. repeat split; try reflexivity. discriminate. Qed.

(** ** The passes in sequence *)

(** C8. Run one after the other, as [generate_filled_pdf_bytes] runs them,
    the two passes do not give the same document in both orders: the raise
    of the checkbox pass ends the sequence, so checkbox-then-scalar draws
    no text at all, while scalar-then-checkbox has drawn every text before
    the raise. On a record with a last name the two pages differ at the
    point of that field. *)
Theorem passes_in_sequence_do_not_commute :
  (forall data p,
     exec (fill_checkboxes data ;; fill_text_fields data) p
       = exec (fill_checkboxes data) p) /\
  (forall data p,
     exec (fill_text_fields data ;; fill_checkboxes data) p
       = exec (fill_checkboxes data) (exec (fill_text_fields data) p)) /\
  drawn_at (exec (fill_checkboxes record_minimal ;; fill_text_fields record_minimal) [])
           (35, 180) = [] /\
  drawn_at (exec (fill_text_fields record_minimal ;; fill_checkboxes record_minimal) [])
           (35, 180) = [Overlay 35 180 "Santos" FONT_NAME FONT_SIZE] /\
  ~ same_document
      (exec (fill_checkboxes record_minimal ;; fill_text_fields record_minimal) [])
      (exec (fill_text_fields record_minimal ;; fill_checkboxes record_minimal) []).
Proof.
  split; [|split; [|split; [|split]]].
  - intros data p.
    destruct (fill_checkboxes_appends data) as (marks & e & H & _).
    rewrite (appends_exec _ _ _ _ (appends_bind_raise _ _ _ _ H)).
    now rewrite (appends_exec _ _ _ _ H).
  - intros data p.
    destruct (fill_checkboxes_appends data) as (marks & e & H & _).
    pose proof (fill_text_fields_appends data) as Ht.
    rewrite (appends_exec _ _ _ _ (appends_bind_ok _ _ _ _ _ _ Ht H)).
    rewrite (appends_exec _ _ _ _ Ht), (appends_exec _ _ _ _ H).
    now rewrite app_assoc.
  - reflexivity.
  - reflexivity.
  - intros H. specialize (H (35, 180)). discriminate H.
Qed.

(** * Further properties of the code *)

(** ** [validate_applicant_data] *)

Lemma validate_accepts_inv data :
  validate_applicant_data data = Ok (true, None) ->
  exists d p l f,
    data = VDict d /\
    dict_get d "personal_info" = Some (VDict p) /\
    dict_get p "last_name" = Some l /\ py_truthy l = true /\
    dict_get p "first_name" = Some f /\ py_truthy f = true.
Proof.
  unfold validate_applicant_data. cbn [validate_sections].
  destruct data as [| b | n | s | l | d]; cbn [py_contains py_get];
    try discriminate.
  - destruct (str_contains "personal_info" s); discriminate.
  - destruct (existsb _ l); discriminate.
  - unfold dict_mem.
    destruct (dict_get d "personal_info") as [personal|] eqn:Ep;
      [|discriminate].
    cbn [validate_fields].
    destruct personal as [| b | n | s | l | p]; cbn [py_contains py_getitem];
      try discriminate.
    + destruct (str_contains "last_name" s); discriminate.
    + destruct (existsb _ l); discriminate.
    + unfold dict_mem, subscript.
      destruct (dict_get p "last_name") as [ln|] eqn:El; [|discriminate].
      destruct (py_truthy ln) eqn:Tl; cbn [negb]; [|discriminate].
      destruct (dict_get p "first_name") as [fn|] eqn:Ef; [|discriminate].
      destruct (py_truthy fn) eqn:Tf; cbn [negb]; [|discriminate].
      intros _. now exists d, p, ln, fn.
Qed.

(** Validation accepts exactly the dicts whose [personal_info] is a dict
    with a last and a first name that are true in a condition; it checks no
    type beyond that. A verdict carries a message exactly when it is a
    refusal. *)
Theorem validate_applicant_data_accepts (data : pyval) :
  (validate_applicant_data data = Ok (true, None) <->
   exists d p l f,
     data = VDict d /\
     dict_get d "personal_info" = Some (VDict p) /\
     dict_get p "last_name" = Some l /\ py_truthy l = true /\
     dict_get p "first_name" = Some f /\ py_truthy f = true) /\
  (forall is_valid error_msg,
     validate_applicant_data data = Ok (is_valid, error_msg) ->
     (is_valid = true <-> error_msg = None)).
Proof.
  split.
  - split.
    + apply validate_accepts_inv.
    + intros (d & p & l & f & -> & Ep & El & Tl & Ef & Tf).
      unfold validate_applicant_data. cbn [validate_sections py_contains py_get].
      unfold dict_mem. rewrite Ep. cbn [validate_fields py_contains py_getitem].
      unfold dict_mem, subscript. now rewrite El, Tl, Ef, Tf.
  - intros is_valid error_msg.
    unfold validate_applicant_data. cbn [validate_sections].
    destruct (py_contains "personal_info" data) as [[]|]; try discriminate.
    + destruct (py_get data "personal_info" (VDict [])) as [personal|];
        [|discriminate].
      cbn [validate_fields].
      destruct (py_contains "last_name" personal) as [[]|]; try discriminate.
      * destruct (py_getitem personal "last_name") as [ln|]; [|discriminate].
        destruct (py_truthy ln); cbn [negb].
        -- destruct (py_contains "first_name" personal) as [[]|]; try discriminate.
           ++ destruct (py_getitem personal "first_name") as [fn|]; [|discriminate].
              destruct (py_truthy fn); cbn [negb]; intros H; inversion H;
                split; congruence.
           ++ intros H; inversion H; split; congruence.
        -- intros H; inversion H; split; congruence.
      * intros H; inversion H; split; congruence.
    + intros H; inversion H; split; congruence.
Qed.

(** ** The request handlers *)

Lemma generate_raises fs data path s :
  exists e, snd (generate_filled_pdf_bytes fs data path s) = Raise e.
Proof.
  destruct (fs path) as [doc|] eqn:E.
  - destruct (generate_after_open fs data path doc s E) as (e & s' & H & _).
    exists e. now rewrite H.
  - exists (FileNotFoundError path).
    unfold generate_filled_pdf_bytes, bind, fitz_open. now rewrite E.
Qed.

(** [webhook] answers every request with an error reply of status 400 or
    500: 400 exactly when the request is not JSON or validation refuses the
    record. It never answers 200 or 502, and its reply does not depend on
    the external service, which it never gets to call. *)
Theorem webhook_never_succeeds (req : request) (path_exists : string -> bool)
    (fs : store) (PDF_TEMPLATE_PATH : string)
    (send_to_external_api : list page -> string -> result api_result) :
  let r := webhook req path_exists fs PDF_TEMPLATE_PATH send_to_external_api in
  (status r = 400 \/ status r = 500) /\
  (exists error, body r = ErrorBody error) /\
  (status r = 400 <->
   is_json req = false \/
   exists data error_msg,
     get_json req = Ok data /\
     validate_applicant_data data = Ok (false, error_msg)) /\
  (forall send', webhook req path_exists fs PDF_TEMPLATE_PATH send' = r).
Proof.
  unfold webhook, webhook_try.
  destruct (is_json req) eqn:Ej; cbn [negb].
  2:{ cbn. repeat split; eauto. }
  destruct (get_json req) as [data|e] eqn:Eg.
  2:{ cbn. repeat split; eauto; try discriminate.
      intros [H | (d & m & H & _)]; discriminate. }
  destruct (validate_applicant_data data) as [[[] error_msg]|e] eqn:Ev; cbn [negb].
  - destruct (generate_raises fs data PDF_TEMPLATE_PATH no_session) as (e & He).
    rewrite He.
    destruct (path_exists PDF_TEMPLATE_PATH); cbn;
      (repeat split; eauto; try discriminate;
       intros [H | (d & m & H & Hv)]; [discriminate|];
       inversion H; subst; congruence).
  - cbn. repeat split; eauto;
      try (intros _; right; now exists data, error_msg).
  - cbn. repeat split; eauto; try discriminate.
    intros [H | (d & m & H & Hv)]; [discriminate|].
    inversion H; subst; congruence.
Qed.

(** [generate_only] never replies with a PDF: every reply is an error of
    status 400 or 500. *)
Theorem generate_only_never_returns_pdf (req : request) (fs : store)
    (PDF_TEMPLATE_PATH : string) :
  let r := generate_only req fs PDF_TEMPLATE_PATH in
  (status r = 400 \/ status r = 500) /\
  (exists error, body r = ErrorBody error) /\
  (forall pdf_bytes filename, body r <> PdfBody pdf_bytes filename).
Proof.
  unfold generate_only, generate_only_try.
  destruct (is_json req); cbn [negb].
  2:{ cbn. repeat split; eauto; discriminate. }
  destruct (get_json req) as [data|e].
  2:{ cbn. repeat split; eauto; discriminate. }
  destruct (validate_applicant_data data) as [[[] error_msg]|e]; cbn [negb].
  - destruct (generate_raises fs data PDF_TEMPLATE_PATH no_session) as (e & He).
    rewrite He. cbn. repeat split; eauto; discriminate.
  - cbn. repeat split; eauto; discriminate.
  - cbn. repeat split; eauto; discriminate.
Qed.

(** A template that cannot be opened: the call raises [FileNotFoundError]
    for that path at once, and no handle is taken. *)
Theorem generate_template_unavailable (fs : store) (data : pyval)
    (template_path : string) (s : session) :
  fs template_path = None ->
  generate_filled_pdf_bytes fs data template_path s
    = (s, Raise (FileNotFoundError template_path)).
Proof.
  intros E. unfold generate_filled_pdf_bytes, bind, fitz_open. now rewrite E.
Qed.

(** ** Paths *)

Lemma contains_char_cons c a s :
  contains_char c (String a s) = (Ascii.eqb c a || contains_char c s)%bool.
Proof. reflexivity. Qed.

(** A path whose first segment has no dot splits after that segment. *)
Lemma str_split_first key rest :
  contains_char "." key = false ->
  str_split "." (key ++ String "." rest) = key :: str_split "." rest.
Proof.
  induction key as [|a key IH]; intros H.
  - reflexivity.
  - rewrite contains_char_cons in H. apply orb_false_iff in H.
    destruct H as [Ha Hk]. cbn [append str_split].
    rewrite Ascii.eqb_sym, Ha. now rewrite (IH Hk).
Qed.

Lemma str_split_single key :
  contains_char "." key = false -> str_split "." key = [key].
Proof.
  induction key as [|a key IH]; intros H.
  - reflexivity.
  - rewrite contains_char_cons in H. apply orb_false_iff in H.
    destruct H as [Ha Hk]. cbn [str_split].
    rewrite Ascii.eqb_sym, Ha. now rewrite (IH Hk).
Qed.

(** The first segment of a split never holds the separator. *)
Lemma str_split_head path :
  exists seg segs,
    str_split "." path = seg :: segs /\ contains_char "." seg = false.
Proof.
  induction path as [|a path (seg & segs & E & H)].
  - now exists "", [].
  - cbn [str_split]. destruct (Ascii.eqb a ".") eqn:Ea.
    + now exists "", (str_split "." path).
    + rewrite E. exists (String a seg), segs. split; [reflexivity|].
      rewrite contains_char_cons, H, Ascii.eqb_sym, Ea. reflexivity.
Qed.

Lemma get_nested_loop_step d key rest :
  get_nested_loop (VDict d) (key :: rest) =
  match dict_get d key with
  | Some v => get_nested_loop v rest
  | None => Ok VNone
  end.
Proof.
  cbn [get_nested_loop isinstance_dict py_contains py_getitem].
  unfold dict_mem, subscript. now destruct (dict_get d key).
Qed.

(** Resolving [a.rest] in a dict is resolving [rest] in the value bound to
    [a], and [None] when [a] is not bound; a path without a dot is a plain
    lookup whose miss is [None]. *)
Theorem get_nested_value_first_segment (d : list (string * pyval))
    (key rest : string) :
  contains_char "." key = false ->
  get_nested_value (VDict d) (key ++ "." ++ rest) =
    match dict_get d key with
    | Some v => get_nested_value v rest
    | None => Ok VNone
    end /\
  get_nested_value (VDict d) key =
    Ok (match dict_get d key with Some v => v | None => VNone end).
Proof.
  intros H. unfold get_nested_value. split.
  - change (key ++ "." ++ rest) with (key ++ String "." rest).
    now rewrite (str_split_first key rest H), get_nested_loop_step.
  - rewrite (str_split_single key H), get_nested_loop_step.
    now destruct (dict_get d key).
Qed.

Lemma get_nested_value_first_segment_witness :
  get_nested_value
    (VDict [("personal_info", VDict [("last_name", VStr "Santos")])])
    ("personal_info" ++ "." ++ "last_name")
  = get_nested_value (VDict [("last_name", VStr "Santos")]) "last_name".
Proof.
  apply (proj1 (get_nested_value_first_segment
                  [("personal_info", VDict [("last_name", VStr "Santos")])]
                  "personal_info" "last_name" eq_refl)).
Defined.

(** A key that holds a dot cannot be addressed: binding such a key at the
    top of a record changes the result of no path. *)
Theorem get_nested_value_ignores_dotted_key (key : string) (v : pyval)
    (d : list (string * pyval)) (path : string) :
  contains_char "." key = true ->
  get_nested_value (VDict ((key, v) :: d)) path = get_nested_value (VDict d) path.
Proof.
  intros H. unfold get_nested_value.
  destruct (str_split_head path) as (seg & segs & -> & Hseg).
  rewrite !get_nested_loop_step. cbn [dict_get].
  destruct (String.eqb seg key) eqn:E; [|reflexivity].
  apply String.eqb_eq in E. subst. congruence.
Qed.

Lemma get_nested_value_ignores_dotted_key_witness :
  get_nested_value (VDict [("a.b", VStr "x"); ("a", VDict [("b", VStr "y")])]) "a.b"
  = get_nested_value (VDict [("a", VDict [("b", VStr "y")])]) "a.b".
Proof.
  apply (get_nested_value_ignores_dotted_key "a.b" (VStr "x")
           [("a", VDict [("b", VStr "y")])] "a.b").
  reflexivity.
Defined.

(** ** What the scalar pass leaves on the page *)

Lemma coords_of_inv keys c :
  In c (coords_of keys) ->
  exists k, In k keys /\ dict_get FIELD_COORDINATES k = Some c.
Proof.
  induction keys as [|k keys IH]; cbn [coords_of In]; [tauto|].
  destruct (dict_get FIELD_COORDINATES k) as [c0|] eqn:E.
  - intros [-> | H].
    + exists k. split; [now left | exact E].
    + destruct (IH H) as (k' & Hin & Hk). exists k'. split; [now right | exact Hk].
  - intros H. destruct (IH H) as (k' & Hin & Hk).
    exists k'. split; [now right | exact Hk].
Qed.

Lemma text_field_marks_length data entry :
  (length (text_field_marks data entry) <= 1)%nat.
Proof.
  unfold text_field_marks.
  destruct (get_nested_value data (fst entry)) as [v|e];
    destruct (dict_get FIELD_COORDINATES (snd entry)) as [[x y]|]; cbn; try lia.
  destruct (py_truthy v && negb (all_space (py_str v)))%bool; cbn; lia.
Qed.

Lemma text_field_marks_format data entry :
  Forall (fun o => ov_font o = FONT_NAME /\ ov_size o = FONT_SIZE /\
                   all_space (ov_text o) = false)
         (text_field_marks data entry).
Proof.
  unfold text_field_marks.
  destruct (get_nested_value data (fst entry)) as [v|e];
    destruct (dict_get FIELD_COORDINATES (snd entry)) as [[x y]|];
    try constructor.
  destruct (py_truthy v) ; cbn [andb]; [|constructor].
  destruct (all_space (py_str v)) eqn:E; cbn [negb]; constructor.
  - cbn [ov_font ov_size ov_text]. now repeat split.
  - constructor.
Qed.

Lemma flat_map_length_le {A B} (f : A -> list B) (l : list A) :
  (forall a, length (f a) <= 1)%nat ->
  (length (flat_map f l) <= length l)%nat.
Proof.
  intros H. induction l as [|a l IH]; cbn [flat_map length]; [lia|].
  rewrite length_app. specialize (H a). lia.
Qed.

Lemma exec_outside {A} pts (m : M A) p pt :
  draws_within pts m -> coord_in pt pts = false ->
  drawn_at (exec m p) pt = drawn_at p pt.
Proof.
  intros (marks & r & H & F) Hpt.
  rewrite (appends_exec m marks r p H). unfold drawn_at.
  rewrite filter_app, (filter_outside pts marks pt F Hpt). apply app_nil_r.
Qed.

Lemma text_coords_entry pt :
  coord_in pt text_coords = true ->
  exists json_path coord_key,
    In (json_path, coord_key) TEXT_FIELD_MAPPINGS /\
    dict_get FIELD_COORDINATES coord_key = Some pt.
Proof.
  unfold text_coords, text_fields. intros E. apply coord_in_In in E.
  destruct (coords_of_inv _ _ E) as (k & Hin & Hk).
  apply in_map_iff in Hin. destruct Hin as ([json_path coord_key] & Hs & Hin).
  exists json_path, coord_key. split; [exact Hin|]. now rewrite <- Hs in Hk.
Qed.

(** The scalar pass only appends to the page, writes at most one text per
    insertion point and at most one per table entry, and every text it
    writes is in the default font and size and has a character that is not
    whitespace. *)
Theorem fill_text_fields_never_overprints (data : pyval) :
  (forall p, exec (fill_text_fields data) p
             = (p ++ written (fill_text_fields data))%list) /\
  (forall pt,
     (length (drawn_at (written (fill_text_fields data)) pt) <= 1)%nat) /\
  Forall (fun o => ov_font o = FONT_NAME /\ ov_size o = FONT_SIZE /\
                   all_space (ov_text o) = false)
         (written (fill_text_fields data)) /\
  (length (written (fill_text_fields data)) <= length TEXT_FIELD_MAPPINGS)%nat.
Proof.
  pose proof (fill_text_fields_appends data) as Ha.
  pose proof (appends_written _ _ _ Ha) as Hw.
  split; [|split; [|split]].
  - intros p. rewrite Hw. apply (appends_exec _ _ _ _ Ha).
  - intros pt. destruct (coord_in pt text_coords) eqn:E.
    + destruct (text_coords_entry pt E) as (json_path & coord_key & Hin & Hk).
      rewrite (fill_text_fields_drawn data json_path coord_key pt Hin Hk).
      apply text_field_marks_length.
    + pose proof (exec_outside text_coords (fill_text_fields data) [] pt
                    (fill_text_fields_within data) E) as H.
      unfold written. rewrite H. cbn. lia.
  - rewrite Hw. apply Forall_flat_map. apply Forall_forall.
    intros entry _. apply text_field_marks_format.
  - rewrite Hw. apply flat_map_length_le. apply text_field_marks_length.
Qed.

(** The coordinate table has two fields no code path fills: the free text
    after Others in the acquired-by row and in the foreign-citizenship mode
    row. Neither pass, nor any step of the checkbox pass, draws at their
    coordinates, whatever the record. *)
Theorem others_text_fields_never_filled (data section : pyval) (p : page)
    (key : string) :
  key = "others_citizenship_text" \/ key = "foreign_mode_others_text" ->
  exists pt,
    dict_get FIELD_COORDINATES key = Some pt /\
    drawn_at (exec (fill_text_fields data) p) pt = drawn_at p pt /\
    drawn_at (exec (fill_checkboxes data) p) pt = drawn_at p pt /\
    Forall (fun step => drawn_at (exec (step section) p) pt = drawn_at p pt)
           checkbox_steps.
Proof.
  intros Hkey.
  assert (H : exists pt, dict_get FIELD_COORDINATES key = Some pt /\
                         coord_in pt text_coords = false /\
                         coord_in pt checkbox_coords = false).
  { destruct Hkey as [-> | ->].
    - exists (455, 394). repeat split; vm_compute; reflexivity.
    - exists (220, 433). repeat split; vm_compute; reflexivity. }
  destruct H as (pt & Hpt & Ht & Hc). exists pt.
  split; [exact Hpt|]. split; [|split].
  - now apply (exec_outside text_coords); [apply fill_text_fields_within|].
  - now apply (exec_outside checkbox_coords); [apply fill_checkboxes_within|].
  - eapply Forall_impl; [|apply checkbox_steps_within].
    cbn. intros step Hstep. now apply (exec_outside checkbox_coords).
Qed.

(** ** How many marks a checkbox step draws *)

Lemma marks_at_most_eval {A} n (r : result A) : marks_at_most n (eval r).
Proof.
  exists [], r. split; [apply appends_eval|]. split; [cbn; lia | constructor].
Qed.

Lemma marks_at_most_bind {A B} n1 n2 (m : M A) (k : A -> M B) :
  marks_at_most n1 m -> (forall a, marks_at_most n2 (k a)) ->
  marks_at_most (n1 + n2) (bind m k).
Proof.
  intros (ms & r & Hm & Lm & Fm) Hk. destruct r as [a|e].
  - destruct (Hk a) as (ks & r & Hka & Lk & Fk).
    exists (ms ++ ks)%list, r. split; [now apply (appends_bind_ok m k ms a ks r)|].
    split; [rewrite length_app; lia | apply Forall_app; now split].
  - exists ms, (Raise e). split; [now apply appends_bind_raise|].
    split; [lia | exact Fm].
Qed.

Lemma marks_at_most_weaken {A} n n' (m : M A) :
  (n <= n')%nat -> marks_at_most n m -> marks_at_most n' m.
Proof.
  intros Hle (ms & r & Hm & Lm & Fm). exists ms, r.
  split; [exact Hm|]. split; [lia | exact Fm].
Qed.

Lemma field_marks_checkbox key :
  (length (field_marks key) <= 1)%nat /\ Forall checkbox_mark (field_marks key).
Proof.
  unfold field_marks.
  destruct (dict_get FIELD_COORDINATES key) as [[x y]|]; cbn [length].
  - split; [lia|]. constructor; [|constructor]. now repeat split.
  - split; [lia | constructor].
Qed.

Lemma mark_field_at_most key : marks_at_most 1 (mark_field key).
Proof.
  exists (field_marks key), (Ok tt). split; [apply mark_field_appends|].
  apply field_marks_checkbox.
Qed.

Lemma mark_mapped_at_most group value : marks_at_most 1 (mark_mapped group value).
Proof.
  eexists _, _. split; [apply mark_mapped_appends|].
  unfold group_marks.
  destruct (dict_get CHECKBOX_MAPPINGS group) as [table|];
    [|split; [cbn; lia | constructor]].
  destruct (dict_get table value) as [key|];
    [apply field_marks_checkbox | split; [cbn; lia | constructor]].
Qed.

Lemma get_lower_at_most section key : marks_at_most 0 (get_lower section key).
Proof.
  unfold get_lower. apply (marks_at_most_bind 0 0); [apply marks_at_most_eval|].
  intros v. apply marks_at_most_eval.
Qed.

Lemma group_step_at_most section key group (norm : string -> string) :
  marks_at_most 1 (bind (get_lower section key)
                        (fun lowered => mark_mapped group (norm lowered))).
Proof.
  apply (marks_at_most_bind 0 1); [apply get_lower_at_most|].
  intros lowered. apply mark_mapped_at_most.
Qed.

Lemma cb_yes_no_at_most citizenship sub flag yes_key no_key :
  marks_at_most 1 (cb_yes_no citizenship sub flag yes_key no_key).
Proof.
  unfold cb_yes_no.
  apply (marks_at_most_bind 0 1); [apply marks_at_most_eval|]. intros section.
  apply (marks_at_most_bind 0 1); [apply marks_at_most_eval|]. intros v.
  destruct (py_truthy v); apply mark_field_at_most.
Qed.

Lemma marks_at_most_written {A} n (m : M A) :
  marks_at_most n m ->
  (length (written m) <= n)%nat /\ Forall checkbox_mark (written m).
Proof.
  intros (ms & r & Hm & Lm & Fm). rewrite (appends_written m ms r Hm).
  now split.
Qed.

Lemma written_raise {A B} (m : M A) (k : A -> M B) e :
  appends m [] (Raise e) -> written (bind m k) = [].
Proof.
  intros H. apply (appends_written _ _ (Raise e)). now apply appends_bind_raise.
Qed.

(** A grouped step has drawn nothing, or the mark of the field its table
    maps some value to. *)
Lemma group_step_written section key group (norm : string -> string) :
  written (bind (get_lower section key)
                (fun lowered => mark_mapped group (norm lowered))) = [] \/
  exists table value checkbox_key,
    dict_get CHECKBOX_MAPPINGS group = Some table /\
    In (value, checkbox_key) table /\
    written (bind (get_lower section key)
                  (fun lowered => mark_mapped group (norm lowered)))
      = field_marks checkbox_key.
Proof.
  pose proof (get_lower_appends section key) as Hg.
  destruct (match py_get section key (VStr "") with
            | Ok v => py_lower v
            | Raise e => Raise e
            end) as [lowered|e].
  - pose proof (appends_bind_ok _ (fun l => mark_mapped group (norm l)) _ _ _ _ Hg
                  (mark_mapped_appends group (norm lowered))) as H.
    rewrite (appends_written _ _ _ H). cbn [app]. unfold group_marks.
    destruct (dict_get CHECKBOX_MAPPINGS group) as [table|] eqn:Et; [|now left].
    destruct (dict_get table (norm lowered)) as [checkbox_key|] eqn:Ek; [|now left].
    right. exists table, (norm lowered), checkbox_key.
    split; [reflexivity|]. split; [now apply dict_get_In | reflexivity].
  - left. now apply (written_raise _ _ e).
Qed.

Lemma cb_yes_no_written citizenship sub flag yes_key no_key :
  written (cb_yes_no citizenship sub flag yes_key no_key) = [] \/
  written (cb_yes_no citizenship sub flag yes_key no_key) = field_marks yes_key \/
  written (cb_yes_no citizenship sub flag yes_key no_key) = field_marks no_key.
Proof.
  unfold written, exec, cb_yes_no. rewrite appends_eval_bind.
  destruct (py_get citizenship sub (VDict [])) as [section|e]; [|now left].
  rewrite appends_eval_bind.
  destruct (py_get section flag VNone) as [v|e]; [|now left].
  destruct (py_truthy v); rewrite mark_field_appends; cbn [fst app]; tauto.
Qed.

Ltac one_of_points H :=
  right; rewrite H; do 2 eexists; split; [|reflexivity]; cbn [In]; tauto.

Ltac group_points section key group norm :=
  destruct (group_step_written section key group norm)
    as [H | (table & value & checkbox_key & Ht & Hin & H)];
  [ now left
  | injection Ht as <-; cbn [In] in Hin;
    repeat (destruct Hin as [Hin | Hin];
            [injection Hin as _ <-; one_of_points H|]);
    now elim Hin ].

Ltac yes_no_points :=
  match goal with
  | |- written (cb_yes_no ?c ?sub ?flag ?yes ?no) = [] \/ _ =>
      destruct (cb_yes_no_written c sub flag yes no) as [H | [H | H]];
      [ now left | one_of_points H | one_of_points H ]
  end.

(** Whatever the section, a grouped step and a yes/no step draw nothing or
    exactly one mark, at the point of a field of their own group, and the
    foreign-citizenship step draws nothing, or its no mark alone, or its
    yes mark followed by at most one mode mark; every mark is the X glyph
    in the checkbox font and size. So no group ever has two of its fields
    marked. *)
Theorem checkbox_steps_mark_at_most_one (section : pyval) :
  Forall (fun step =>
            (length (written (step section)) <= 1)%nat /\
            Forall checkbox_mark (written (step section)))
         single_mark_steps /\
  Forall (fun '(step, points) =>
            written (step section) = [] \/
            exists x y,
              In (x, y) points /\
              written (step section)
                = [Overlay x y CHECKBOX_CHAR FONT_NAME CHECKBOX_FONT_SIZE])
         step_points /\
  (length (written (cb_foreign_citizenship section)) <= 2)%nat /\
  Forall checkbox_mark (written (cb_foreign_citizenship section)) /\
  (written (cb_foreign_citizenship section) = [] \/
   written (cb_foreign_citizenship section) = [checkbox_at (193, 416)] \/
   exists mode_marks,
     written (cb_foreign_citizenship section)
       = checkbox_at (170, 416) :: mode_marks /\
     (mode_marks = [] \/
      exists x y,
        In (x, y) [(95, 435); (123, 435); (177, 435)] /\
        mode_marks = [Overlay x y CHECKBOX_CHAR FONT_NAME CHECKBOX_FONT_SIZE])).
Proof.
  split; [|split; [|split; [|split]]].
  - unfold single_mark_steps.
    repeat (apply Forall_cons; [apply marks_at_most_written|]);
      try apply Forall_nil.
    + apply (group_step_at_most section "applicant_category"
               "applicant_category" (fun x => x)).
    + apply (group_step_at_most section "processing_type" "processing_type"
               (fun x => x)).
    + apply (group_step_at_most section "sex" "sex" (fun x => x)).
    + apply (group_step_at_most section "civil_status" "civil_status"
               (str_replace " " "_")).
    + apply (group_step_at_most section "acquired_by" "acquired_by" (fun x => x)).
    + apply cb_yes_no_at_most.
    + unfold cb_renounced.
      apply (marks_at_most_bind 0 1); [apply marks_at_most_eval|]. intros v.
      destruct (py_truthy v); apply mark_field_at_most.
    + apply cb_yes_no_at_most.
    + apply cb_yes_no_at_most.
  - unfold step_points.
    repeat (apply Forall_cons; [|]); try apply Forall_nil.
    + unfold cb_applicant_category.
      group_points section "applicant_category" "applicant_category"
        (fun x : string => x).
    + left. destruct (cb_processing_type_raises section) as (e & H).
      apply (appends_written _ _ _ H).
    + unfold cb_sex. group_points section "sex" "sex" (fun x : string => x).
    + unfold cb_civil_status.
      group_points section "civil_status" "civil_status" (str_replace " " "_").
    + unfold cb_acquired_by.
      group_points section "acquired_by" "acquired_by" (fun x : string => x).
    + unfold cb_foreign_military. yes_no_points.
    + unfold written, exec, cb_renounced. rewrite appends_eval_bind.
      destruct (py_get section "renounced_philippine_citizenship" VNone)
        as [v|e]; [|now left].
      destruct (py_truthy v); rewrite mark_field_appends; right;
        do 2 eexists; (split; [|reflexivity]); cbn [In]; tauto.
    + unfold cb_foreign_passport. yes_no_points.
    + unfold cb_ph_passport. yes_no_points.
  - apply (marks_at_most_written 2). unfold cb_foreign_citizenship.
    apply (marks_at_most_bind 0 2); [apply marks_at_most_eval|]. intros foreign_cit.
    apply (marks_at_most_bind 0 2); [apply marks_at_most_eval|]. intros acquired.
    destruct (py_truthy acquired).
    + apply (marks_at_most_bind 1 1); [apply mark_field_at_most|]. intros _.
      apply (group_step_at_most foreign_cit "mode" "foreign_citizenship_mode"
               (fun x => x)).
    + apply (marks_at_most_weaken 1 2); [lia | apply mark_field_at_most].
  - apply (marks_at_most_written 2). unfold cb_foreign_citizenship.
    apply (marks_at_most_bind 0 2); [apply marks_at_most_eval|]. intros foreign_cit.
    apply (marks_at_most_bind 0 2); [apply marks_at_most_eval|]. intros acquired.
    destruct (py_truthy acquired).
    + apply (marks_at_most_bind 1 1); [apply mark_field_at_most|]. intros _.
      apply (group_step_at_most foreign_cit "mode" "foreign_citizenship_mode"
               (fun x => x)).
    + apply (marks_at_most_weaken 1 2); [lia | apply mark_field_at_most].
  - unfold written at 1 2 3, exec, cb_foreign_citizenship.
    rewrite appends_eval_bind.
    destruct (py_get section "foreign_citizenship" (VDict []))
      as [foreign_cit|e]; [|now left].
    rewrite appends_eval_bind.
    destruct (py_get foreign_cit "acquired" VNone) as [v|e]; [|now left].
    destruct (py_truthy v).
    + right. right.
      unfold bind at 1. rewrite mark_field_appends.
      pose proof (get_lower_appends foreign_cit "mode") as Hg.
      destruct (match py_get foreign_cit "mode" (VStr "") with
                | Ok v0 => py_lower v0
                | Raise e => Raise e
                end) as [lowered|e].
      * rewrite (appends_bind_ok _
                   (fun l => mark_mapped "foreign_citizenship_mode" l) _ _ _ _ Hg
                   (mark_mapped_appends "foreign_citizenship_mode" lowered)).
        cbn [fst app]. eexists. split; [reflexivity|].
        unfold group_marks.
        cbn [dict_get CHECKBOX_MAPPINGS String.eqb Ascii.eqb Bool.eqb].
        destruct (String.eqb lowered "birth");
          [right; do 2 eexists; split; [|reflexivity]; cbn [In]; tauto|].
        destruct (String.eqb lowered "naturalization");
          [right; do 2 eexists; split; [|reflexivity]; cbn [In]; tauto|].
        destruct (String.eqb lowered "others");
          [right; do 2 eexists; split; [|reflexivity]; cbn [In]; tauto|].
        now left.
      * rewrite (appends_bind_raise _ _ _ _ Hg). cbn [fst app].
        eexists. split; [reflexivity | now left].
    + right. left. rewrite mark_field_appends. reflexivity.
Qed.

(** ** The yes/no steps on their own *)

Lemma cb_yes_no_returns citizenship sub flag yes_key no_key p p' :
  cb_yes_no citizenship sub flag yes_key no_key p = (p', Ok tt) ->
  exists section v,
    py_get citizenship sub (VDict []) = Ok section /\
    py_get section flag VNone = Ok v /\
    p' = (p ++ field_marks (if py_truthy v then yes_key else no_key))%list.
Proof.
  unfold cb_yes_no. rewrite appends_eval_bind.
  destruct (py_get citizenship sub (VDict [])) as [section|e]; [|discriminate].
  rewrite appends_eval_bind.
  destruct (py_get section flag VNone) as [v|e] eqn:Ev; [|discriminate].
  intros H. exists section, v. split; [reflexivity|]. split; [exact Ev|].
  destruct (py_truthy v); rewrite mark_field_appends in H; now inversion H.
Qed.

(** A yes/no step that returns has drawn exactly one mark: at the yes field
    when the flag it read is true in a condition, at the no field for any
    other value, the missing flag and the missing sub-section included.
    The foreign-citizenship step adds the mode mark, and reads the mode,
    only under a true flag. *)
Theorem yes_no_steps_mark_exactly_one (citizenship : pyval) (p p' : page) :
  Forall (fun '(step, sub, flag, yes_pt, no_pt) =>
            step citizenship p = (p', Ok tt) ->
            exists section v,
              py_get citizenship sub (VDict []) = Ok section /\
              py_get section flag VNone = Ok v /\
              p' = (p ++ [checkbox_at (if py_truthy v then yes_pt else no_pt)])%list)
         sub_section_steps /\
  (cb_renounced citizenship p = (p', Ok tt) ->
   exists v,
     py_get citizenship "renounced_philippine_citizenship" VNone = Ok v /\
     p' = (p ++ [checkbox_at (if py_truthy v then (436, 439) else (465, 439))])%list) /\
  (cb_foreign_citizenship citizenship p = (p', Ok tt) ->
   exists foreign_cit v,
     py_get citizenship "foreign_citizenship" (VDict []) = Ok foreign_cit /\
     py_get foreign_cit "acquired" VNone = Ok v /\
     if py_truthy v then
       exists mode,
         py_get foreign_cit "mode" (VStr "") = Ok (VStr mode) /\
         p' = (p ++ checkbox_at (170, 416)
                 :: group_marks "foreign_citizenship_mode" (str_lower mode))%list
     else p' = (p ++ [checkbox_at (193, 416)])%list).
Proof.
  split; [|split].
  - unfold sub_section_steps.
    repeat (apply Forall_cons; [|]); try apply Forall_nil;
      intros H; apply cb_yes_no_returns in H;
      destruct H as (section & v & Hs & Hv & ->);
      exists section, v; repeat split; try assumption;
      now destruct (py_truthy v).
  - unfold cb_renounced. rewrite appends_eval_bind.
    destruct (py_get citizenship "renounced_philippine_citizenship" VNone)
      as [v|e]; [|discriminate].
    intros H. exists v. split; [reflexivity|].
    destruct (py_truthy v); rewrite mark_field_appends in H; now inversion H.
  - unfold cb_foreign_citizenship. rewrite appends_eval_bind.
    destruct (py_get citizenship "foreign_citizenship" (VDict []))
      as [foreign_cit|e]; [|discriminate].
    rewrite appends_eval_bind.
    destruct (py_get foreign_cit "acquired" VNone) as [v|e] eqn:Ev;
      [|discriminate].
    intros H. exists foreign_cit, v. split; [reflexivity|]. split; [exact Ev|].
    destruct (py_truthy v).
    + unfold bind at 1 in H. rewrite mark_field_appends in H.
      pose proof (get_lower_appends foreign_cit "mode") as Hg.
      destruct (py_get foreign_cit "mode" (VStr "")) as [mv|e].
      * destruct mv as [| b | n | mode | l | d]; cbn [py_lower] in Hg;
          try (rewrite (appends_bind_raise _ _ _ _ Hg) in H; discriminate).
        exists mode. split; [reflexivity|].
        rewrite (appends_bind_ok _ _ _ _ _ _ Hg
                   (mark_mapped_appends "foreign_citizenship_mode" (str_lower mode)))
          in H.
        cbn [app] in H. inversion H. now rewrite <- app_assoc.
      * rewrite (appends_bind_raise _ _ _ _ Hg) in H. discriminate.
    + rewrite mark_field_appends in H. now inversion H.
Qed.

Lemma yes_no_steps_mark_exactly_one_witness :
  cb_foreign_military (VDict [("foreign_military", VDict [("served", VBool true)])]) []
    = ([checkbox_at (409, 413)], Ok tt) /\
  exists section v,
    py_get (VDict [("foreign_military", VDict [("served", VBool true)])])
           "foreign_military" (VDict []) = Ok section /\
    py_get section "served" VNone = Ok v /\
    [checkbox_at (409, 413)]
      = ([] ++ [checkbox_at (if py_truthy v then (409, 413) else (438, 413))])%list.
Proof.
  split; [reflexivity|].
  apply (Forall_inv
           (proj1 (yes_no_steps_mark_exactly_one
                     (VDict [("foreign_military", VDict [("served", VBool true)])])
                     [] [checkbox_at (409, 413)]))).
  reflexivity.
Defined.

(** ** Names *)

Lemma name_parts_loop_bad parts acc :
  forallb name_value_ok parts = false ->
  name_parts_loop parts acc = Raise (AttributeError "upper").
Proof.
  revert acc. induction parts as [|part parts IH]; intros acc; [discriminate|].
  cbn [forallb]. destruct (name_value_ok part) eqn:Ep; cbn [andb].
  - intros Hr. cbn [name_parts_loop].
    destruct part as [| b | n | s | l | d]; cbn [name_value_ok] in Ep;
      try (apply negb_true_iff in Ep; rewrite Ep; now apply IH).
    cbn [py_truthy py_upper].
    destruct (negb (String.eqb s "")); [|now apply IH].
    destruct (negb (String.eqb (str_upper s) "N/A")); now apply IH.
  - intros _. now apply name_parts_loop_raises.
Qed.

Lemma name_text_nonempty v s : name_text v = Some s -> s <> "".
Proof.
  destruct v; cbn [name_text]; try discriminate.
  destruct (String.eqb s0 "") eqn:E; cbn [orb]; [discriminate|].
  destruct (String.eqb (str_upper s0) "N/A"); [discriminate|].
  intros H. inversion H. subst. now apply String.eqb_neq.
Qed.

Lemma str_join_nonempty sep s rest : s <> "" -> str_join sep (s :: rest) <> "".
Proof.
  intros Hs. cbn [str_join]. destruct rest; [exact Hs|].
  destruct s; [now elim Hs | discriminate].
Qed.

Lemma present_names_join_empty parts :
  str_join " " (present_names parts) = "" <-> present_names parts = [].
Proof.
  split; [|now intros ->].
  induction parts as [|v parts IH]; cbn [present_names]; [reflexivity|].
  destruct (name_text v) as [s|] eqn:E; [|exact IH].
  intros H. elim (str_join_nonempty " " s (present_names parts)); [|exact H].
  now apply (name_text_nonempty v).
Qed.

(** On a record validation accepts, [extract_full_name] is decided by the
    types of the three names: with each a string or a value that is false
    in a condition it returns the joined name, and otherwise it raises
    [AttributeError]; validation rules neither case out. The returned name
    is empty exactly when no part counts, which for string names means that
    first and last name are both spellings of N/A. *)
Theorem validated_record_display_name (data : pyval) :
  validate_applicant_data data = Ok (true, None) ->
  exists p first last middle,
    py_get data "personal_info" (VDict []) = Ok (VDict p) /\
    dict_get p "first_name" = Some first /\ py_truthy first = true /\
    dict_get p "last_name" = Some last /\ py_truthy last = true /\
    py_get (VDict p) "middle_name" (VStr "") = Ok middle /\
    extract_full_name data =
      (if forallb name_value_ok [first; middle; last]
       then Ok (str_join " " (present_names [first; middle; last]))
       else Raise (AttributeError "upper")) /\
    (extract_full_name data = Ok "" <->
     forallb name_value_ok [first; middle; last] = true /\
     present_names [first; middle; last] = []).
Proof.
  intros Hv.
  destruct (validate_accepts_inv data Hv) as (d & p & l & f & -> & Ep & El & Tl & Ef & Tf).
  exists p, f, l,
    (match dict_get p "middle_name" with Some m => m | None => VStr "" end).
  assert (E : extract_full_name (VDict d) =
              (if forallb name_value_ok
                    [f; match dict_get p "middle_name" with
                        | Some m => m | None => VStr "" end; l]
               then Ok (str_join " "
                      (present_names
                         [f; match dict_get p "middle_name" with
                             | Some m => m | None => VStr "" end; l]))
               else Raise (AttributeError "upper"))).
  { unfold extract_full_name. cbn [py_get]. rewrite Ep. cbn [py_get].
    rewrite Ef, El.
    destruct (forallb name_value_ok
                [f; match dict_get p "middle_name" with
                    | Some m => m | None => VStr "" end; l]) eqn:Hok.
    - pose proof (name_parts_loop_present _ [] Hok) as Hn.
      cbn [map app] in Hn.
      change (@map string pyval VStr []) with (@nil pyval) in Hn.
      rewrite Hn. unfold py_join. now rewrite py_strings_strs.
    - now rewrite (name_parts_loop_bad _ [] Hok). }
  cbn [py_get]. rewrite Ep.
  repeat (split; [first [reflexivity | assumption]|]).
  rewrite E. clear E.
  remember [f; match dict_get p "middle_name" with
               | Some m => m | None => VStr "" end; l] as parts.
  destruct (forallb name_value_ok parts) eqn:Hok.
  - split.
    + intros H. split; [reflexivity|].
      apply present_names_join_empty. congruence.
    + intros [_ H]. now rewrite H.
  - split; [discriminate | intros [H _]; discriminate].
Qed.

Lemma validated_record_display_name_witness :
  validate_applicant_data (record_names (VStr "N/A") VNone (VStr "n/a"))
    = Ok (true, None) /\
  exists p first last middle,
    py_get (record_names (VStr "N/A") VNone (VStr "n/a")) "personal_info"
           (VDict []) = Ok (VDict p) /\
    dict_get p "first_name" = Some first /\ py_truthy first = true /\
    dict_get p "last_name" = Some last /\ py_truthy last = true /\
    py_get (VDict p) "middle_name" (VStr "") = Ok middle /\
    extract_full_name (record_names (VStr "N/A") VNone (VStr "n/a")) =
      (if forallb name_value_ok [first; middle; last]
       then Ok (str_join " " (present_names [first; middle; last]))
       else Raise (AttributeError "upper")) /\
    (extract_full_name (record_names (VStr "N/A") VNone (VStr "n/a")) = Ok "" <->
     forallb name_value_ok [first; middle; last] = true /\
     present_names [first; middle; last] = []).
Proof.
  split; [reflexivity|].
  apply (validated_record_display_name
           (record_names (VStr "N/A") VNone (VStr "n/a"))).
  reflexivity.
Defined.

Lemma extract_full_name_record_names first middle last :
  extract_full_name (record_names first middle last) =
  match name_parts_loop [first; middle; last] [] with
  | Raise e => Raise e
  | Ok name_parts => py_join " " name_parts
  end.
Proof. reflexivity. Qed.

(** The form keeps what the display name drops: a name given as N/A, in
    any spelling, is drawn in its field by the scalar pass and left out of
    the name [extract_full_name] returns. *)
Theorem not_applicable_drawn_but_not_named (first middle last : pyval)
    (s : string) :
  str_upper s = "N/A" ->
  drawn_at (written (fill_text_fields (record_names (VStr s) middle last)))
           (315, 180) = [Overlay 315 180 s FONT_NAME FONT_SIZE] /\
  drawn_at (written (fill_text_fields (record_names first (VStr s) last)))
           (35, 214) = [Overlay 35 214 s FONT_NAME FONT_SIZE] /\
  drawn_at (written (fill_text_fields (record_names first middle (VStr s))))
           (35, 180) = [Overlay 35 180 s FONT_NAME FONT_SIZE] /\
  (forallb name_value_ok [first; last] = true ->
   extract_full_name (record_names first (VStr s) last)
     = Ok (str_join " " (present_names [first; last]))).
Proof.
  intros Hs.
  assert (Hsp : all_space s = false).
  { apply str_upper_na in Hs. destruct Hs as [-> | [-> | [-> | ->]]]; reflexivity. }
  assert (Hne : String.eqb s "" = false).
  { destruct s; [discriminate Hsp | reflexivity]. }
  split; [|split; [|split]].
  - rewrite (fill_text_fields_drawn _ "personal_info.first_name" "first_name"
               (315, 180)); [|cbn; tauto | reflexivity].
    unfold text_field_marks. cbn [fst snd].
    change (get_nested_value (record_names (VStr s) middle last)
              "personal_info.first_name") with (@Ok pyval (VStr s)).
    change (dict_get FIELD_COORDINATES "first_name") with (Some (315, 180)).
    cbn [py_truthy py_str]. now rewrite Hne, Hsp.
  - rewrite (fill_text_fields_drawn _ "personal_info.middle_name" "middle_name"
               (35, 214)); [|cbn; tauto | reflexivity].
    unfold text_field_marks. cbn [fst snd].
    change (get_nested_value (record_names first (VStr s) last)
              "personal_info.middle_name") with (@Ok pyval (VStr s)).
    change (dict_get FIELD_COORDINATES "middle_name") with (Some (35, 214)).
    cbn [py_truthy py_str]. now rewrite Hne, Hsp.
  - rewrite (fill_text_fields_drawn _ "personal_info.last_name" "last_name"
               (35, 180)); [|cbn; tauto | reflexivity].
    unfold text_field_marks. cbn [fst snd].
    change (get_nested_value (record_names first middle (VStr s))
              "personal_info.last_name") with (@Ok pyval (VStr s)).
    change (dict_get FIELD_COORDINATES "last_name") with (Some (35, 180)).
    cbn [py_truthy py_str]. now rewrite Hne, Hsp.
  - intros Hok. cbn [forallb] in Hok. rewrite andb_true_r in Hok.
    apply andb_true_iff in Hok. destruct Hok as [Hf Hl].
    assert (Hall : forallb name_value_ok [first; VStr s; last] = true).
    { cbn [forallb name_value_ok]. now rewrite Hf, Hl. }
    rewrite extract_full_name_record_names.
    pose proof (name_parts_loop_present _ [] Hall) as Hn.
    cbn [map app] in Hn.
    change (@map string pyval VStr []) with (@nil pyval) in Hn.
    rewrite Hn. unfold py_join. rewrite py_strings_strs.
    cbn [present_names name_text]. apply String.eqb_eq in Hs. rewrite Hs, Hne.
    cbn [orb]. reflexivity.
Qed.

(** ** Numbers and flags in text fields *)

Lemma repr_int_not_space n : all_space (repr_int n) = false.
Proof.
  unfold repr_int. destruct n as [|q|q]; [reflexivity| |];
    cbn [Z.to_int NilZero.string_of_int];
    destruct (Pos.to_uint q); reflexivity.
Qed.

(** A mapped path bound to a number is drawn as its decimal text, except
    the number 0, which is skipped like an absent value; a flag is drawn as
    the text True when it is true and skipped when it is false. *)
Theorem numbers_and_flags_in_text_fields (data : pyval)
    (json_path coord_key : string) (x y : Z) :
  In (json_path, coord_key) TEXT_FIELD_MAPPINGS ->
  dict_get FIELD_COORDINATES coord_key = Some (x, y) ->
  (forall n, get_nested_value data json_path = Ok (VInt n) ->
     drawn_at (written (fill_text_fields data)) (x, y) =
       if n =? 0 then [] else [Overlay x y (repr_int n) FONT_NAME FONT_SIZE]) /\
  (forall b, get_nested_value data json_path = Ok (VBool b) ->
     drawn_at (written (fill_text_fields data)) (x, y) =
       if b then [Overlay x y "True" FONT_NAME FONT_SIZE] else []).
Proof.
  intros Hin Hc. split.
  - intros n Hv.
    rewrite (fill_text_fields_drawn data json_path coord_key (x, y) Hin Hc).
    unfold text_field_marks. cbn [fst snd]. rewrite Hv, Hc.
    cbn [py_truthy py_str py_repr]. rewrite repr_int_not_space.
    now destruct (n =? 0).
  - intros b Hv.
    rewrite (fill_text_fields_drawn data json_path coord_key (x, y) Hin Hc).
    unfold text_field_marks. cbn [fst snd]. rewrite Hv, Hc.
    now destruct b.
Qed.

(** ** Where the checkbox pass stops *)

(** On a record whose application type is a mapping, or missing, with a
    category and a processing type that are strings, or missing, the
    checkbox pass draws the mark of the category, if the lowercased value
    is [adult] or [minor], and then raises [KeyError] for the group
    [processing_type]; the mark stays on the page. *)
Theorem fill_checkboxes_stops_at_processing_type (data app_type : pyval)
    (category proc_type : string) (p : page) :
  py_get data "application_type" (VDict []) = Ok app_type ->
  py_get app_type "applicant_category" (VStr "") = Ok (VStr category) ->
  py_get app_type "processing_type" (VStr "") = Ok (VStr proc_type) ->
  fill_checkboxes data p =
    ((p ++ (if String.eqb (str_lower category) "adult"
            then [checkbox_at (33, 152)]
            else if String.eqb (str_lower category) "minor"
            then [checkbox_at (82, 152)]
            else []))%list,
     Raise (KeyError "processing_type")).
Proof.
  intros Ha Hc Hp.
  pose proof (cb_group_step app_type "applicant_category" "applicant_category"
                (fun x => x) category Hc) as H1.
  pose proof (cb_group_step app_type "processing_type" "processing_type"
                (fun x => x) proc_type Hp) as H2.
  change (dict_get CHECKBOX_MAPPINGS "applicant_category")
    with (Some [("adult", "checkbox_adult"); ("minor", "checkbox_minor")]) in H1.
  change (dict_get CHECKBOX_MAPPINGS "processing_type")
    with (@None (list (string * string))) in H2.
  cbv beta iota in H1, H2.
  change (group_marks "processing_type" (str_lower proc_type))
    with (@nil overlay) in H2.
  unfold fill_checkboxes. rewrite appends_eval_bind, Ha.
  assert (E : group_marks "applicant_category" (str_lower category) =
              if String.eqb (str_lower category) "adult"
              then [checkbox_at (33, 152)]
              else if String.eqb (str_lower category) "minor"
              then [checkbox_at (82, 152)]
              else []).
  { unfold group_marks. cbn [dict_get CHECKBOX_MAPPINGS String.eqb Ascii.eqb Bool.eqb].
    destruct (String.eqb (str_lower category) "adult"); [reflexivity|].
    destruct (String.eqb (str_lower category) "minor"); reflexivity. }
  rewrite <- E.
  replace (group_marks "applicant_category" (str_lower category))
    with (group_marks "applicant_category" (str_lower category) ++ [])%list
    by apply app_nil_r.
  revert p. eapply appends_bind_ok; [exact H1|].
  apply appends_bind_raise. exact H2.
Qed.

Lemma fill_checkboxes_stops_at_processing_type_witness :
  fill_checkboxes
    (VDict [("application_type", VDict [("applicant_category", VStr "Adult")])]) []
  = ([checkbox_at (33, 152)], Raise (KeyError "processing_type")).
Proof.
  apply (fill_checkboxes_stops_at_processing_type
           (VDict [("application_type", VDict [("applicant_category", VStr "Adult")])])
           (VDict [("applicant_category", VStr "Adult")]) "Adult" "" []
           eq_refl eq_refl eq_refl).
Defined.

End Engine.

(** * Closed instances

    The statements above hold for every character table. The instances
    below hold ASCII text, or whitespace, on which no table is consulted;
    they are stated at [printable_latin1]. *)

Lemma fill_text_fields_entry_witness :
  In ("personal_info.last_name", "last_name") TEXT_FIELD_MAPPINGS /\
  exists x y value,
    dict_get FIELD_COORDINATES "last_name" = Some (x, y) /\
    get_nested_value record_place_mapping "personal_info.last_name" = Ok value /\
    (forall p,
       outcome (fill_text_fields printable_latin1 record_place_mapping) p = Ok tt) /\
    drawn_at (written (fill_text_fields printable_latin1 record_place_mapping)) (x, y) =
      if (py_truthy value && negb (all_space (py_str printable_latin1 value)))%bool
      then [Overlay x y (py_str printable_latin1 value) FONT_NAME FONT_SIZE]
      else [].
Proof.
  split.
  - simpl. left. reflexivity.
  - apply (fill_text_fields_entry printable_latin1 record_place_mapping
             "personal_info.last_name" "last_name").
    simpl. left. reflexivity.
Defined.

(** C2, as stated, fails: a path that resolves to a nested mapping is not
    skipped; the mapping's [str] is drawn at the coordinate. *)
Lemma fill_text_fields_draws_mapping :
  get_nested_value record_place_mapping "personal_info.place_of_birth"
    = Ok (VDict [("city", VStr "Cebu")]) /\
  dict_get FIELD_COORDINATES "place_of_birth" = Some (315, 214) /\
  drawn_at (written (fill_text_fields printable_latin1 record_place_mapping))
           (315, 214)
    = [Overlay 315 214 "{'city': 'Cebu'}" FONT_NAME FONT_SIZE] /\
  drawn_at (written (fill_text_fields printable_latin1 record_place_mapping))
           (315, 214) <> [].
Proof. repeat split; try reflexivity. vm_compute. discriminate. Qed.

Lemma whitespace_text_is_skipped_witness :
  py_truthy (VStr blank_text) = true /\
  all_space blank_text = true /\
  (forall p, insert_text 35 180 blank_text FONT_SIZE p = (p, Ok tt)) /\
  drawn_at (written (fill_text_fields printable_latin1 record_unicode_blank))
           (35, 180) = [].
Proof.
  split; [reflexivity|]. split; [reflexivity|].
  apply (whitespace_text_is_skipped printable_latin1 record_unicode_blank
           "personal_info.last_name" "last_name" (VStr blank_text) 35 180).
  - simpl. left. reflexivity.
  - reflexivity.
  - reflexivity.
  - reflexivity.
Defined.

Lemma generate_filled_pdf_bytes_leaves_handle_open_witness :
  one_page_store "form.pdf" = Some [[]] /\
  s_handle (fst (generate_filled_pdf_bytes printable_latin1 one_page_store
                   record_minimal "form.pdf" no_session)) = Opened /\
  is_ok (snd (generate_filled_pdf_bytes printable_latin1 one_page_store
                record_minimal "form.pdf" no_session)) = false.
Proof.
  split; [reflexivity|].
  apply (generate_filled_pdf_bytes_leaves_handle_open printable_latin1
           one_page_store record_minimal "form.pdf" [[]] no_session).
  reflexivity.
Defined.

Lemma passes_order_independent_witness :
  "checkbox_single" <> "last_name" /\
  same_document
    (exec (fill_text_field printable_latin1 record_minimal
             "personal_info.last_name" "last_name")
          (exec (mark_field "checkbox_single") []))
    (exec (mark_field "checkbox_single")
          (exec (fill_text_field printable_latin1 record_minimal
                   "personal_info.last_name" "last_name")
                [])).
Proof.
  split; [discriminate|].
  apply (proj2 (proj2 (proj2 (proj2 (proj2 (proj2
           (passes_order_independent printable_latin1 record_minimal []))))))
           "checkbox_single" "last_name").
  - discriminate.
  - apply (proj1 (proj1 (proj2 (proj2 (proj2 (proj2 (proj2
             (passes_order_independent printable_latin1 record_minimal []))))))
             "checkbox_single" "")).
  - apply (proj2 (proj1 (proj2 (proj2 (proj2 (proj2 (proj2
             (passes_order_independent printable_latin1 record_minimal []))))))
             "last_name" "personal_info.last_name")).
Defined.

Lemma generate_template_unavailable_witness :
  generate_filled_pdf_bytes printable_latin1 (fun _ => None) record_minimal
    "form.pdf" no_session
    = (no_session, Raise (FileNotFoundError "form.pdf")).
Proof.
  apply (generate_template_unavailable printable_latin1 (fun _ => None)
           record_minimal "form.pdf" no_session).
  reflexivity.
Defined.

Lemma others_text_fields_never_filled_witness :
  exists pt,
    dict_get FIELD_COORDINATES "others_citizenship_text" = Some pt /\
    drawn_at (exec (fill_text_fields printable_latin1 record_minimal) []) pt
      = drawn_at [] pt /\
    drawn_at (exec (fill_checkboxes record_minimal) []) pt = drawn_at [] pt /\
    Forall (fun step => drawn_at (exec (step record_minimal) []) pt = drawn_at [] pt)
           checkbox_steps.
Proof.
  apply (others_text_fields_never_filled printable_latin1 record_minimal
           record_minimal [] "others_citizenship_text").
  left. reflexivity.
Defined.

Lemma not_applicable_drawn_but_not_named_witness :
  drawn_at (written (fill_text_fields printable_latin1
                       (record_names (VStr "Maria") (VStr "N/A") (VStr "Santos"))))
           (35, 214) = [Overlay 35 214 "N/A" FONT_NAME FONT_SIZE] /\
  extract_full_name (record_names (VStr "Maria") (VStr "N/A") (VStr "Santos"))
    = Ok "Maria Santos".
Proof.
  split.
  - apply (proj1 (proj2 (not_applicable_drawn_but_not_named printable_latin1
                           (VStr "Maria") VNone (VStr "Santos") "N/A" eq_refl))).
  - apply (proj2 (proj2 (proj2 (not_applicable_drawn_but_not_named
                                  printable_latin1
                                  (VStr "Maria") VNone (VStr "Santos") "N/A"
                                  eq_refl))) eq_refl).
Defined.

Lemma numbers_and_flags_in_text_fields_witness :
  drawn_at
    (written (fill_text_fields printable_latin1
       (VDict [("personal_info",
                VDict [("date_of_birth", VDict [("year", VInt 1990)])])])))
    (165, 253)
  = [Overlay 165 253 "1990" FONT_NAME FONT_SIZE].
Proof.
  apply (proj1 (numbers_and_flags_in_text_fields printable_latin1
                  (VDict [("personal_info",
                           VDict [("date_of_birth", VDict [("year", VInt 1990)])])])
                  "personal_info.date_of_birth.year" "dob_year" 165 253
                  ltac:(cbn; tauto) eq_refl) 1990 eq_refl).
Defined.
